(** * The immutability Terraform provider: a shallow embedding

    The provider authenticates to a Vault server (static token or GitHub
    federated login) and implements three resources on top of the session:
    AppRole credentials, PKI certificates and a generic-secret data source.

    Go functions are embedded as computations in a small monad [Go] that
    threads the resource data of the call ([schema.ResourceData]) and the
    list of requests sent so far, and that distinguishes a normal return
    from a run-time panic.  Go [error] results stay ordinary return values,
    as in the source.  Code that lives in libraries (the Vault API client,
    net/http, io/ioutil, encoding/json, the clock) is reached through the
    record [Env]. *)

From stdpp Require Import base option strings gmap list pretty.
From Stdlib Require Import ZArith.

Set Default Proof Using "Type".
Set Warnings "-register-all".
Open Scope string_scope.
Open Scope Z_scope.

(** ** Go values *)

(** The double-quote character, as a string. *)
Definition dq : string := String (Ascii.ascii_of_nat 34) EmptyString.

(** A Go [error]: only its message matters here. *)
Definition error := string.

(** Values of type [interface{}] as they occur in attribute bags and in
    decoded JSON: [nil], [bool], [int], [json.Number] (kept as its
    literal), [string], [[]interface{}] and [map[string]interface{}]. *)
Inductive value : Type :=
  | VNil
  | VBool (b : bool)
  | VInt (n : Z)
  | VNumber (lit : string)
  | VString (s : string)
  | VArray (l : list value)
  | VObject (m : gmap string value).

(** [fmt]'s rendering of an [error] under the verb [%s]; the nil error
    prints as a bad-verb marker. *)
Definition fmt_s (e : option error) : string :=
  match e with
  | Some msg => msg
  | None => "%!s(<nil>)"
  end.

(** [fmt]'s rendering of an [int] under the verb [%d]. *)
Definition fmt_d (n : Z) : string := pretty n.

(** ** Library records *)

(** [api.SecretAuth] and [api.Secret] of the Vault client; [Auth] is a
    pointer in Go, hence an option here. *)
Record SecretAuth := { ClientToken : string }.

Record Secret := {
  RequestID : string;
  LeaseID : string;
  LeaseDuration : Z;
  Renewable : bool;
  Data : gmap string value;
  Auth : option SecretAuth
}.

(** [http.Client]: [Timeout] in nanoseconds, zero meaning no timeout;
    [Transport] is nil or carries the root CA pool (the PEM blocks that
    were appended to it). *)
Record http_Client := {
  Timeout : Z;
  Transport : option (list string)
}.

Definition time_Second : Z := 1000000000.

Record http_Request := {
  Method : string;
  URL : string;
  Body : string
}.

Record http_Response := {
  StatusCode : Z;
  RespBody : string
}.

(** [api.TLSConfig], [api.Config] and [api.Client]. *)
Record TLSConfig := {
  CACert : string;
  CAPath : string;
  Insecure : bool;
  ClientCert : string;
  ClientKey : string
}.

Record api_Config := {
  Address : string;
  TLS : option TLSConfig
}.

Record api_Client := {
  client_config : api_Config;
  client_token : string
}.

Definition SetToken (c : api_Client) (t : string) : api_Client :=
  {| client_config := client_config c; client_token := t |}.

Definition client_Address (c : api_Client) : string :=
  Address (client_config c).

(** The provider's own context, handed to every resource operation. *)
Record ResourceContext := {
  client : api_Client;
  githubOrg : string;
  namespaceDomain : string
}.

(** A wall-clock reading. [zone] is the offset east of UTC in seconds. *)
Record Time := {
  year : Z; month : Z; day : Z;
  hour : Z; minute : Z; second : Z;
  zone : Z
}.

(** ** The environment: what the libraries answer *)

Record Env := {
  ioutil_ReadFile : string → string * option error;
  http_Do : http_Client → http_Request → option http_Response * option error;
  url_Parse_ok : string → bool;
  json_Unmarshal : string → Secret * option error;
  json_Marshal : value → string;
  ConfigureTLS : TLSConfig → option error;
  api_NewClient : api_Config → option api_Client * option error;
  Logical_Read : api_Client → string → option Secret * option error;
  Logical_Write :
    api_Client → string → gmap string value → option Secret * option error;
  time_Now : Time
}.

(** ** Resource data and the trace of requests *)

Record ResourceData := {
  Id : string;
  attrs : gmap string value
}.

Inductive event : Type :=
  | EvHttp (c : http_Client) (r : http_Request)
  | EvRead (path : string)
  | EvWrite (path : string) (data : gmap string value).

Record store := {
  rd : ResourceData;
  sent : list event
}.

(** How a Go call ends: it returns, or it panics. *)
Inductive outcome (A : Type) : Type :=
  | Returns (a : A)
  | Panics (why : string).
Arguments Returns {A} a.
Arguments Panics {A} why.

Definition Go (A : Type) : Type := store → outcome A * store.

Definition ret {A} (a : A) : Go A := λ s, (Returns a, s).

Definition bind {A B} (m : Go A) (f : A → Go B) : Go B :=
  λ s, match m s with
       | (Returns a, s') => f a s'
       | (Panics why, s') => (Panics why, s')
       end.

Definition panic {A} (why : string) : Go A := λ s, (Panics why, s).

Notation "x <- m ;; k" := (bind m (λ x, k))
  (at level 100, m at next level, right associativity).
Notation "m ;;; k" := (bind m (λ _, k))
  (at level 100, right associativity).

Definition nil_deref : string := "invalid memory address or nil pointer dereference".
Definition bad_assert : string := "interface conversion: interface {} is not string".

(** [d.Get(k).(string)] on a field the schema declares as [TypeString]:
    the zero value when the field is unset. *)
Definition str_attr (d : ResourceData) (k : string) : string :=
  match attrs d !! k with
  | Some (VString v) => v
  | _ => EmptyString
  end.

Definition Get_string (k : string) : Go string :=
  λ s, (Returns (str_attr (rd s) k), s).

Definition Get_Id : Go string := λ s, (Returns (Id (rd s)), s).

Definition SetId (v : string) : Go unit :=
  λ s, (Returns tt,
        {| rd := {| Id := v; attrs := attrs (rd s) |}; sent := sent s |}).

(** [d.Set(k, v)]: the value is stored as it is given; the error result
    of [Set] is discarded by every caller. *)
Definition Set_ (k : string) (v : value) : Go unit :=
  λ s, (Returns tt,
        {| rd := {| Id := Id (rd s); attrs := <[k := v]> (attrs (rd s)) |};
           sent := sent s |}).

Definition emit (e : event) : Go unit :=
  λ s, (Returns tt, {| rd := rd s; sent := sent s ++ [e] |}).

(** [v.(string)], the panicking form of the type assertion. *)
Definition assert_string (v : option value) : Go string :=
  match v with
  | Some (VString s) => ret s
  | _ => panic bad_assert
  end.

(** [m[k]] read as an [interface{}]: nil when the key is absent. *)
Definition index (m : gmap string value) (k : string) : value :=
  default VNil (m !! k).

(** [d.Get(k).([]interface{})] on a [TypeList] field. *)
Definition list_attr (d : ResourceData) (k : string) : list value :=
  match attrs d !! k with
  | Some (VArray l) => l
  | _ => []
  end.

Definition Get_list (k : string) : Go (list value) :=
  λ s, (Returns (list_attr (rd s) k), s).

(** [d.Get(k).(bool)] on a [TypeBool] field. *)
Definition bool_attr (d : ResourceData) (k : string) : bool :=
  match attrs d !! k with
  | Some (VBool b) => b
  | _ => false
  end.

Definition Get_bool (k : string) : Go bool :=
  λ s, (Returns (bool_attr (rd s) k), s).

Definition is_empty (s : string) : bool := bool_decide (s = EmptyString).

(** ** The provider: federated login and Configure *)

Section provider.
Variable env : Env.

(** [http.NewRequest]: no request when the URL does not parse. *)
Definition http_NewRequest (method url body : string)
  : option http_Request * option error :=
  if url_Parse_ok env url
  then (Some {| Method := method; URL := url; Body := body |}, None)
  else (None, Some ("parse " +:+ url))%string.

(** [client.Do(req)]: a nil request is dereferenced. *)
Definition client_Do (c : http_Client) (req : option http_Request)
  : Go (option http_Response * option error) :=
  match req with
  | None => panic nil_deref
  | Some r => emit (EvHttp c r) ;;; ret (http_Do env c r)
  end.

Definition githubLogin : Go (string * option error) :=
  address <- Get_string "address" ;;
  githubOrg <- Get_string "github_org" ;;
  namespaceDomain <- Get_string "namespace_domain" ;;
  personalAccessToken <- Get_string "personal_access_token" ;;
  if is_empty personalAccessToken || is_empty githubOrg
     || is_empty namespaceDomain
  then ret (EmptyString,
            Some "Missing personal_access_token or github_org or namespace_domain")
  else
    let githubPath := "github/" +:+ namespaceDomain +:+ "/" +:+ githubOrg in
    let client0 := {| Timeout := time_Second * 10; Transport := None |} in
    vaultCaCertFile <- Get_string "ca_cert_file" ;;
    (* The function from the URL on, for the client chosen below. *)
    let with_client (client : http_Client) : Go (string * option error) :=
      let vaultGitHubURL :=
        address +:+ "/v1/auth/" +:+ githubPath +:+ "/login" in
      let jsonStr :=
        "{" +:+ dq +:+ "token" +:+ dq +:+ ":" +:+ dq
            +:+ personalAccessToken +:+ dq +:+ "}" in
      let authRequest := fst (http_NewRequest "POST" vaultGitHubURL jsonStr) in
      r <- client_Do client authRequest ;;
      match r with
      | (_, Some err) => ret (EmptyString, Some err)
      | (None, None) =>
          ret (EmptyString, Some "No response from vault during approle auth")
      | (Some resp, None) =>
          if negb (StatusCode resp =? 200)
          then ret (EmptyString,
                    Some ("Vault authentication to GitHub Status "
                          +:+ fmt_d (StatusCode resp)))
          else
            let htmlData := RespBody resp in
            match json_Unmarshal env htmlData with
            | (_, Some err) => ret (EmptyString, Some err)
            | (payload, None) =>
                match Auth payload with
                | None => panic nil_deref
                | Some auth => ret (ClientToken auth, None)
                end
            end
      end in
    if negb (is_empty vaultCaCertFile)
    then
      match ioutil_ReadFile env vaultCaCertFile with
      | (_, Some err) => ret (EmptyString, Some err)
      | (caCert, None) =>
          let caCertPool := [caCert] in
          with_client {| Timeout := 0; Transport := Some caCertPool |}
      end
    else with_client client0.

(** [clientAuthI[0].(map[string]interface{})] followed by the two
    string assertions on its fields. *)
Definition client_auth_files (v : value) : Go (string * string) :=
  match v with
  | VObject clientAuth =>
      cert <- assert_string (clientAuth !! "cert_file") ;;
      key <- assert_string (clientAuth !! "key_file") ;;
      ret (cert, key)
  | _ => panic "interface conversion: interface {} is not map[string]interface {}"
  end.

Definition providerConfigure : Go (option ResourceContext * option error) :=
  address <- Get_string "address" ;;
  clientAuthI <- Get_list "client_auth" ;;
  if (1 <? Z.of_nat (length clientAuthI))
  then ret (None, Some "client_auth block may appear only once")
  else
    files <- match clientAuthI with
             | [v] => client_auth_files v
             | _ => ret (EmptyString, EmptyString)
             end ;;
    caFile <- Get_string "ca_cert_file" ;;
    caDir <- Get_string "ca_cert_dir" ;;
    insecure <- Get_bool "skip_tls_verify" ;;
    let tls := {| CACert := caFile; CAPath := caDir; Insecure := insecure;
                  ClientCert := fst files; ClientKey := snd files |} in
    match ConfigureTLS env tls with
    | Some err =>
        ret (None, Some ("failed to configure TLS for Vault API: " +:+ err))
    | None =>
        let config := {| Address := address; TLS := Some tls |} in
        match api_NewClient env config with
        | (_, Some err) =>
            ret (None, Some ("failed to configure Vault API: " +:+ err))
        | (client, None) =>
            token0 <- Get_string "token" ;;
            personalAccessToken <- Get_string "personal_access_token" ;;
            login <- (if negb (is_empty personalAccessToken)
                      then githubLogin
                      else ret (token0, None)) ;;
            match login with
            | (_, Some err) => ret (None, Some err)
            | (token, None) =>
                if is_empty token
                then ret (None, Some "No authentication token was supplied!")
                else
                  match client with
                  | None => panic nil_deref
                  | Some c =>
                      org <- Get_string "github_org" ;;
                      ns <- Get_string "namespace_domain" ;;
                      ret (Some {| client := SetToken c token;
                                   githubOrg := org;
                                   namespaceDomain := ns |}, None)
                  end
            end
        end
    end.
End provider.

(** ** Calls on the Vault logical backend *)

Section resources.
Variable env : Env.
Variable meta : ResourceContext.

Definition logical_Read (path : string)
  : Go (option Secret * option error) :=
  emit (EvRead path) ;;; ret (Logical_Read env (client meta) path).

Definition logical_Write (path : string) (data : gmap string value)
  : Go (option Secret * option error) :=
  emit (EvWrite path data) ;;; ret (Logical_Write env (client meta) path data).

(** [secret.Data] through a possibly nil [*api.Secret]. *)
Definition secret_Data (secret : option Secret) : Go (gmap string value) :=
  match secret with
  | None => panic nil_deref
  | Some s => ret (Data s)
  end.

(** ** AppRole *)

Definition approleWrite : Go (option error) :=
  let data : gmap string value := ∅ in
  repository <- Get_string "repository" ;;
  let path := "auth/approle/" +:+ namespaceDomain meta +:+ "/"
              +:+ githubOrg meta +:+ "/role/" +:+ repository in
  r <- logical_Read (path +:+ "/role-id") ;;
  match r with
  | (_, Some _) | (None, _) =>
      ret (Some ("Error reading RoleID from Vault: " +:+ fmt_s (snd r)))
  | (Some secretRole, None) =>
      if negb (bool_decide (is_Some (Data secretRole !! "role_id")))
      then ret (Some "RoleID not found")
      else
        roleID <- assert_string (Data secretRole !! "role_id") ;;
        w <- logical_Write (path +:+ "/secret-id") data ;;
        match w with
        | (_, Some _) | (None, _) =>
            ret (Some ("Error generating SecretID from Vault: "
                       +:+ fmt_s (snd w)))
        | (Some secret, None) =>
            if negb (bool_decide (is_Some (Data secret !! "secret_id")))
            then ret (Some "secretID not found")
            else
              secretID <- assert_string (Data secret !! "secret_id") ;;
              SetId path ;;;
              Set_ "role_id" (VString roleID) ;;;
              Set_ "secret_id" (VString secretID) ;;;
              Set_ "auth_path"
                (VString (client_Address (client meta)
                          +:+ "/v1/auth/approle/" +:+ namespaceDomain meta
                          +:+ "/" +:+ githubOrg meta +:+ "/login")) ;;;
              ret None
        end
  end.

Definition approleDelete : Go (option error) :=
  path <- Get_Id ;;
  secretID <- Get_string "secret_id" ;;
  let data : gmap string value := <["secret_id" := VString secretID]> ∅ in
  let uri := path +:+ "/secret-id/destroy" in
  w <- logical_Write uri data ;;
  match snd w with
  | Some err => ret (Some ("Error Revoking secret_id: " +:+ err))
  | None => ret None
  end.

(** Read ignores both of its arguments. *)
Definition approleRead : Go (option error) := ret None.

(** ** PKI certificates *)

Definition pkiWrite : Go (option error) :=
  commonName <- Get_string "common_name" ;;
  path <- Get_string "path" ;;
  altNames <- Get_string "alt_names" ;;
  ipSANS <- Get_string "ip_sans" ;;
  ttl <- Get_string "ttl" ;;
  let data : gmap string value := <["common_name" := VString commonName]> ∅ in
  let data := if negb (is_empty altNames)
              then <["alt_names" := VString altNames]> data else data in
  let data := if negb (is_empty ipSANS)
              then <["ip_sans" := VString ipSANS]> data else data in
  let data := if negb (is_empty ttl)
              then <["ttl" := VString ttl]> data else data in
  let uri := path +:+ "/issue/" +:+ githubOrg meta in
  w <- logical_Write uri data ;;
  match w with
  | (_, Some err) => ret (Some ("error writing to Vault: " +:+ err))
  | (secret, None) =>
      sdata <- secret_Data secret ;;
      id <- assert_string (sdata !! "serial_number") ;;
      SetId id ;;;
      Set_ "certificate" (index sdata "certificate") ;;;
      Set_ "private_key" (index sdata "private_key") ;;;
      Set_ "issuing_ca" (index sdata "issuing_ca") ;;;
      Set_ "private_key_type" (index sdata "private_key_type") ;;;
      Set_ "serial_number" (index sdata "serial_number") ;;;
      ret None
  end.

Definition pkiDelete : Go (option error) :=
  id <- Get_Id ;;
  path <- Get_string "path" ;;
  let data : gmap string value := <["serial_number" := VString id]> ∅ in
  let uri := path +:+ "/revoke" in
  w <- logical_Write uri data ;;
  match w with
  | (_, Some err) => ret (Some ("error writing to Vault: " +:+ err))
  | (secret, None) =>
      sdata <- secret_Data secret ;;
      Set_ "revocation_time" (index sdata "revocation_time") ;;;
      ret None
  end.

(** Read ignores both of its arguments. *)
Definition pkiRead : Go (option error) := ret None.
End resources.

(** ** Rendering a time with a layout

    Go's [Time.Format] scans the layout for elements of the reference
    time and copies everything else as text.  The elements modelled are
    the numeric ones (2006 06 01 1 02 2 15 03 3 04 4 05 5) and the zone
    forms Z07:00 and -07:00; names of months and days, AM/PM markers,
    fractional seconds and the remaining zone forms are left out. *)

Fixpoint zeros (k : nat) : string :=
  match k with
  | O => EmptyString
  | S k' => "0" +:+ zeros k'
  end.

(** [appendInt]: decimal, zero-padded to [width]. *)
Definition appendInt (x : Z) (width : nat) : string :=
  let s := pretty x in
  zeros (width - String.length s) +:+ s.

Definition hour12 (t : Time) : Z :=
  let hr := hour t `mod` 12 in
  if hr =? 0 then 12 else hr.

Definition zone_text (t : Time) (utc : string) : string :=
  if zone t =? 0 then utc
  else
    let z := zone t `quot` 60 in
    (if z <? 0 then "-" else "+")
      +:+ appendInt (Z.abs z `quot` 60) 2 +:+ ":"
      +:+ appendInt (Z.abs z `rem` 60) 2.

(** The layout element that starts at the head of [layout], if any: its
    length and its rendering. *)
Definition std_at (t : Time) (layout : string) : option (nat * string) :=
  let starts p := String.prefix p layout in
  if starts "2006" then Some (4%nat, appendInt (year t) 4)
  else if starts "01" then Some (2%nat, appendInt (month t) 2)
  else if starts "02" then Some (2%nat, appendInt (day t) 2)
  else if starts "03" then Some (2%nat, appendInt (hour12 t) 2)
  else if starts "04" then Some (2%nat, appendInt (minute t) 2)
  else if starts "05" then Some (2%nat, appendInt (second t) 2)
  else if starts "06" then Some (2%nat, appendInt (year t `mod` 100) 2)
  else if starts "15" then Some (2%nat, appendInt (hour t) 2)
  else if starts "1" then Some (1%nat, appendInt (month t) 0)
  else if starts "2" then Some (1%nat, appendInt (day t) 0)
  else if starts "3" then Some (1%nat, appendInt (hour12 t) 0)
  else if starts "4" then Some (1%nat, appendInt (minute t) 0)
  else if starts "5" then Some (1%nat, appendInt (second t) 0)
  else if starts "Z07:00" then Some (6%nat, zone_text t "Z")
  else if starts "-07:00" then Some (6%nat, zone_text t "+00:00")
  else None.

(** The scan: [skip] counts the characters of the current element that
    are still to be passed over. *)
Fixpoint format_from (t : Time) (skip : nat) (layout : string) : string :=
  match layout with
  | EmptyString => EmptyString
  | String c rest =>
      match skip with
      | S k => format_from t k rest
      | O =>
          match std_at t layout with
          | Some (n, txt) => txt +:+ format_from t (n - 1) rest
          | None => String c (format_from t 0 rest)
          end
      end
  end.

Definition Format (t : Time) (layout : string) : string :=
  format_from t 0 layout.

(** The constant [time.RFC3339]. *)
Definition time_RFC3339 : string := "2006-01-02T15:04:05Z07:00".

(** ** The generic-secret data source *)

Section generic_secret.
Variable env : Env.
Variable meta : ResourceContext.

(** One step of the loop over [secret.Data]: strings as they are,
    anything else through [json.Marshal]. *)
Definition flatten_entry (k : string) (v : value)
    (dataMap : gmap string string) : gmap string string :=
  match v with
  | VString vs => <[k := vs]> dataMap
  | _ => <[k := json_Marshal env v]> dataMap
  end.

Definition flatten (data : gmap string value) : gmap string string :=
  map_fold flatten_entry ∅ data.

Definition genericSecretDataSourceRead : Go (option error) :=
  path <- Get_string "path" ;;
  r <- logical_Read env meta path ;;
  match r with
  | (_, Some _) | (None, _) =>
      ret (Some ("Error reading " +:+ path +:+ " from Vault: "
                 +:+ fmt_s (snd r)))
  | (Some secret, None) =>
      SetId (RequestID secret) ;;;
      let jsonDataBytes := json_Marshal env (VObject (Data secret)) in
      Set_ "data_json" (VString jsonDataBytes) ;;;
      let dataMap := flatten (Data secret) in
      Set_ "data" (VObject (VString <$> dataMap)) ;;;
      Set_ "lease_id" (VString (LeaseID secret)) ;;;
      Set_ "lease_duration" (VInt (LeaseDuration secret)) ;;;
      Set_ "lease_start_time"
        (VString (Format (time_Now env) "RFC3339")) ;;;
      Set_ "lease_renewable" (VBool (Renewable secret)) ;;;
      ret None
  end.
End generic_secret.

(** ** Test doubles used by the closed examples *)

Definition sample_time : Time :=
  {| year := 2017; month := 5; day := 9;
     hour := 10; minute := 20; second := 30; zone := 0 |}.

(** ** Resource schemas *)

Inductive ValueType : Type :=
  TypeString | TypeBool | TypeInt | TypeList | TypeMap.

(** The fields of [schema.Schema] the resources use. *)
Record Schema := {
  Type_ : ValueType;
  Required : bool;
  Optional : bool;
  Computed : bool;
  ForceNew : bool;
  Default : option value;
  Description : string
}.

Definition callback : Type := Env → ResourceContext → Go (option error).

(** [schema.Resource]: the lifecycle callbacks that are set, and the
    schema. *)
Record Resource := {
  Create : option callback;
  Delete : option callback;
  Read : option callback;
  Schema_ : list (string * Schema)
}.

Definition required_string (forceNew : bool) (descr : string) : Schema :=
  {| Type_ := TypeString; Required := true; Optional := false;
     Computed := false; ForceNew := forceNew; Default := None;
     Description := descr |}.

Definition optional_string (descr : string) : Schema :=
  {| Type_ := TypeString; Required := false; Optional := true;
     Computed := false; ForceNew := true; Default := None;
     Description := descr |}.

Definition computed (t : ValueType) (descr : string) : Schema :=
  {| Type_ := t; Required := false; Optional := false;
     Computed := true; ForceNew := false; Default := None;
     Description := descr |}.

Definition approleResource : Resource :=
  {| Create := Some approleWrite;
     Delete := Some approleDelete;
     Read := Some (λ _ _, approleRead);
     Schema_ :=
       [("repository", required_string true "Name of GitHub repository");
        ("secret_id", computed TypeString "The AppRole Secret ID");
        ("role_id", computed TypeString "AppRole Role ID");
        ("auth_path", computed TypeString "AppRole Login path")] |}.

Definition pkiResource : Resource :=
  {| Create := Some pkiWrite;
     Delete := Some pkiDelete;
     Read := Some (λ _ _, pkiRead);
     Schema_ :=
       [("common_name", required_string true "Common name of certificate");
        ("path",
         {| Type_ := TypeString; Required := false; Optional := true;
            Computed := false; ForceNew := true;
            Default := Some (VString "vault_intermediate");
            Description := "Path to the Certificate Authority" |});
        ("alt_names", optional_string "Subject Alt Names, comma delimited");
        ("ip_sans", optional_string "IP Subject Alt Names, comma delimited");
        ("ttl", optional_string "TTL for certificate");
        ("certificate", computed TypeString "The certificate");
        ("private_key", computed TypeString "The private key");
        ("issuing_ca", computed TypeString "The issuing CA");
        ("private_key_type", computed TypeString "The private key type");
        ("serial_number", computed TypeString "The serial number");
        ("revocation_time", computed TypeInt "The revocation time")] |}.

Definition genericSecretDataSource : Resource :=
  {| Create := None;
     Delete := None;
     Read := Some genericSecretDataSourceRead;
     Schema_ :=
       [("path",
         required_string false "Full path from which a secret will be read.");
        ("data_json",
         computed TypeString "JSON-encoded secret data read from Vault.");
        ("data", computed TypeMap "Map of strings read from Vault.");
        ("lease_id",
         computed TypeString "Lease identifier assigned by vault.");
        ("lease_duration",
         computed TypeInt
           "Lease duration in seconds relative to the time in lease_start_time.");
        ("lease_start_time",
         computed TypeString
           "Time at which the lease was read, using the clock of the system where Terraform was running");
        ("lease_renewable",
         computed TypeBool
           "True if the duration of this lease can be extended through renewal.")]
  |}.

(** The field [k] is declared, and declared [Computed]. *)
Definition is_computed (r : Resource) (k : string) : bool :=
  match list_to_map (M := gmap string Schema) (Schema_ r) !! k with
  | Some sch => Computed sch
  | None => false
  end.

(** ** Vocabulary of the statements, and test doubles *)

(** The login URL and body as the specification spells them. *)
Definition login_url (A N O : string) : string :=
  A +:+ "/v1/auth/github/" +:+ N +:+ "/" +:+ O +:+ "/login".

Definition login_body (P : string) : string :=
  "{" +:+ dq +:+ "token" +:+ dq +:+ ":" +:+ dq +:+ P +:+ dq +:+ "}".

Definition login_request (d : ResourceData) : http_Request :=
  {| Method := "POST";
     URL := login_url (str_attr d "address") (str_attr d "namespace_domain")
              (str_attr d "github_org");
     Body := login_body (str_attr d "personal_access_token") |}.

(** The client [githubLogin] builds for a given bag. *)
Definition login_client (env : Env) (d : ResourceData) : http_Client :=
  if is_empty (str_attr d "ca_cert_file")
  then {| Timeout := time_Second * 10; Transport := None |}
  else {| Timeout := 0;
          Transport := Some [fst (ioutil_ReadFile env (str_attr d "ca_cert_file"))] |}.

Definition complete_triple (d : ResourceData) : Prop :=
  str_attr d "personal_access_token" ≠ EmptyString
  ∧ str_attr d "github_org" ≠ EmptyString
  ∧ str_attr d "namespace_domain" ≠ EmptyString.

(** The CA file, when one is configured, can be read. *)
Definition ca_readable (env : Env) (d : ResourceData) : Prop :=
  str_attr d "ca_cert_file" = EmptyString
  ∨ snd (ioutil_ReadFile env (str_attr d "ca_cert_file")) = None.

Definition bag (fields : list (string * string)) : ResourceData :=
  {| Id := EmptyString;
     attrs := list_to_map (prod_map id VString <$> fields) |}.

(** The body of a successful login answer carrying [tok]. *)
Definition auth_body (tok : string) : string :=
  "{" +:+ dq +:+ "auth" +:+ dq +:+ ":{" +:+ dq +:+ "client_token" +:+ dq
      +:+ ":" +:+ dq +:+ tok +:+ dq +:+ "}}".

(** A decoder that knows three bodies: a login answer for tok-xyz, an
    auth object with no token in it, and the empty object. *)
Definition stub_Unmarshal (body : string) : Secret * option error :=
  let with_auth a :=
    {| RequestID := EmptyString; LeaseID := EmptyString; LeaseDuration := 0;
       Renewable := false; Data := ∅; Auth := a |} in
  if bool_decide (body = auth_body "tok-xyz")
  then (with_auth (Some {| ClientToken := "tok-xyz" |}), None)
  else if bool_decide (body = "{" +:+ dq +:+ "auth" +:+ dq +:+ ":{}}")
  then (with_auth (Some {| ClientToken := EmptyString |}), None)
  else if bool_decide (body = "{}")
  then (with_auth None, None)
  else (with_auth None, Some "invalid character looking for beginning of value").

(** An environment in which every login request is answered by [answer],
    the only readable file is [ca_file], and nothing else is special. *)
Definition stub_env (ca_file : string)
    (answer : option http_Response * option error) : Env :=
  {| ioutil_ReadFile := λ f,
       if bool_decide (f = ca_file)
       then ("-----BEGIN CERTIFICATE-----", None)
       else (EmptyString, Some ("open " +:+ f +:+ ": no such file or directory"));
     http_Do := λ _ _, answer;
     url_Parse_ok := λ _, true;
     json_Unmarshal := stub_Unmarshal;
     json_Marshal := λ _, "null";
     ConfigureTLS := λ _, None;
     api_NewClient := λ cfg,
       (Some {| client_config := cfg; client_token := EmptyString |}, None);
     Logical_Read := λ _ _, (None, None);
     Logical_Write := λ _ _ _, (None, None);
     time_Now := sample_time |}.

Definition ok_answer (body : string) : option http_Response * option error :=
  (Some {| StatusCode := 200; RespBody := body |}, None).

Definition scenario_config : ResourceData :=
  bag [("address", "https://vault.test:8200");
       ("personal_access_token", "pat123");
       ("github_org", "acme");
       ("namespace_domain", "acme.io")].

Definition fresh (d : ResourceData) : store := {| rd := d; sent := [] |}.

Definition ca_config : ResourceData :=
  bag [("address", "https://vault.test:8200");
       ("personal_access_token", "pat123");
       ("github_org", "acme");
       ("namespace_domain", "acme.io");
       ("ca_cert_file", "/etc/ssl/vault-ca.pem")].

Definition keeps_rd {A} (m : Go A) : Prop := ∀ s, rd (m s).2 = rd s.

(** The [client_auth] list is empty, or holds one block with both files. *)
Definition client_auth_ok (d : ResourceData) : Prop :=
  list_attr d "client_auth" = []
  ∨ ∃ (m : gmap string value) (cert key : string),
      list_attr d "client_auth" = [VObject m]
      ∧ m !! "cert_file" = Some (VString cert)
      ∧ m !! "key_file" = Some (VString key).


Definition both_config : ResourceData :=
  bag [("address", "https://vault.test:8200");
       ("token", "static-root-token");
       ("personal_access_token", "pat123");
       ("github_org", "acme");
       ("namespace_domain", "acme.io")].

Definition no_token : error := "No authentication token was supplied!".

Definition approle_path (meta : ResourceContext) (d : ResourceData) : string :=
  "auth/approle/" +:+ namespaceDomain meta +:+ "/" +:+ githubOrg meta
    +:+ "/role/" +:+ str_attr d "repository".

Definition approle_auth_path (meta : ResourceContext) : string :=
  client_Address (client meta) +:+ "/v1/auth/approle/"
    +:+ namespaceDomain meta +:+ "/" +:+ githubOrg meta +:+ "/login".

(** The resource data a successful Create leaves behind. *)
Definition approle_recorded (meta : ResourceContext) (d : ResourceData)
    (roleID secretID : string) : ResourceData :=
  {| Id := approle_path meta d;
     attrs := <["auth_path" := VString (approle_auth_path meta)]>
                (<["secret_id" := VString secretID]>
                   (<["role_id" := VString roleID]> (attrs d))) |}.

(** A backend answer is unusable for [field]: an error, no object, or an
    object without the field. *)
Definition answer_lacks (field : string)
    (a : option Secret * option error) : Prop :=
  a.2 ≠ None ∨ a.1 = None ∨ ∃ sec, a.1 = Some sec ∧ Data sec !! field = None.

(** A backend answer carries the string [v] under [field]. *)
Definition answer_has (field v : string)
    (a : option Secret * option error) : Prop :=
  ∃ sec, a = (Some sec, None) ∧ Data sec !! field = Some (VString v).

(** A Vault backend given by its read and write answers; login, files and
    TLS are as in [stub_env]. *)
Definition backend_env
    (read : string → option Secret * option error)
    (write : string → gmap string value → option Secret * option error)
    (marshal : value → string) (now : Time) : Env :=
  {| ioutil_ReadFile := λ f, (EmptyString, Some "no such file or directory");
     http_Do := λ _ _, (None, Some "connection refused");
     url_Parse_ok := λ _, true;
     json_Unmarshal := stub_Unmarshal;
     json_Marshal := marshal;
     ConfigureTLS := λ _, None;
     api_NewClient := λ cfg,
       (Some {| client_config := cfg; client_token := EmptyString |}, None);
     Logical_Read := λ _, read;
     Logical_Write := λ _, write;
     time_Now := now |}.

Definition acme_context : ResourceContext :=
  {| client := {| client_config :=
                    {| Address := "https://vault.test:8200"; TLS := None |};
                  client_token := "tok-xyz" |};
     githubOrg := "acme";
     namespaceDomain := "acme.io" |}.

Definition secret_with (data : list (string * value)) : Secret :=
  {| RequestID := "req-1"; LeaseID := EmptyString; LeaseDuration := 0;
     Renewable := false; Data := list_to_map data; Auth := None |}.

(** The issuance request Create builds from the bag. *)
Definition pki_issue_body (d : ResourceData) : gmap string value :=
  let data : gmap string value :=
    <["common_name" := VString (str_attr d "common_name")]> ∅ in
  let data := if negb (is_empty (str_attr d "alt_names"))
              then <["alt_names" := VString (str_attr d "alt_names")]> data
              else data in
  let data := if negb (is_empty (str_attr d "ip_sans"))
              then <["ip_sans" := VString (str_attr d "ip_sans")]> data
              else data in
  if negb (is_empty (str_attr d "ttl"))
  then <["ttl" := VString (str_attr d "ttl")]> data
  else data.

Definition pki_issue_uri (meta : ResourceContext) (d : ResourceData) : string :=
  str_attr d "path" +:+ "/issue/" +:+ githubOrg meta.

Definition issued_cert : ResourceData :=
  {| Id := "12:34:AB";
     attrs := list_to_map [("common_name", VString "svc.acme.io");
                           ("path", VString "pki_int");
                           ("serial_number", VString "12:34:AB")] |}.

Definition cert_request : ResourceData :=
  bag [("common_name", "svc.acme.io"); ("path", "pki_int"); ("ttl", "8760h")].

(** What one payload value becomes in the flat map. *)
Definition flat_value (env : Env) (v : value) : string :=
  match v with
  | VString vs => vs
  | _ => json_Marshal env v
  end.

(** A marshaller for the shapes used in the examples. *)
Definition sample_Marshal (v : value) : string :=
  match v with
  | VNil => "null"
  | VBool true => "true"
  | VBool false => "false"
  | VInt n => pretty n
  | VNumber lit => lit
  | VString s => dq +:+ s +:+ dq
  | VArray [] => "[]"
  | _ => "{}"
  end.

Definition mixed_secret : Secret :=
  {| RequestID := "req-7"; LeaseID := "secret/app/lease-1";
     LeaseDuration := 2764800; Renewable := true;
     Data := list_to_map [("user", VString "svc"); ("port", VNumber "5432");
                          ("tls", VBool true)];
     Auth := None |}.

Definition secret_env (now : Time) : Env :=
  backend_env (λ _, (Some mixed_secret, None)) (λ _ _, (None, None))
    sample_Marshal now.

Definition next_day : Time :=
  {| year := 2017; month := 5; day := 10;
     hour := 10; minute := 47; second := 2; zone := 0 |}.

Definition missing_triple : error :=
  "Missing personal_access_token or github_org or namespace_domain".

(** [env] with another URL parser. *)
Definition with_url_Parse (env : Env) (ok : string → bool) : Env :=
  {| ioutil_ReadFile := ioutil_ReadFile env;
     http_Do := http_Do env;
     url_Parse_ok := ok;
     json_Unmarshal := json_Unmarshal env;
     json_Marshal := json_Marshal env;
     ConfigureTLS := ConfigureTLS env;
     api_NewClient := api_NewClient env;
     Logical_Read := Logical_Read env;
     Logical_Write := Logical_Write env;
     time_Now := time_Now env |}.

(** The certificate and key files of the single [client_auth] block. *)
Definition client_auth_pair (d : ResourceData) : string * string :=
  match list_attr d "client_auth" with
  | [VObject m] =>
      (match m !! "cert_file" with Some (VString c) => c | _ => EmptyString end,
       match m !! "key_file" with Some (VString k) => k | _ => EmptyString end)
  | _ => (EmptyString, EmptyString)
  end.

(** The TLS settings and the client configuration Configure derives from
    the bag. *)
Definition configured_tls (d : ResourceData) : TLSConfig :=
  {| CACert := str_attr d "ca_cert_file";
     CAPath := str_attr d "ca_cert_dir";
     Insecure := bool_attr d "skip_tls_verify";
     ClientCert := (client_auth_pair d).1;
     ClientKey := (client_auth_pair d).2 |}.

Definition configured_client (d : ResourceData) : api_Config :=
  {| Address := str_attr d "address"; TLS := Some (configured_tls d) |}.

Definition two_blocks : ResourceData :=
  {| Id := EmptyString;
     attrs := list_to_map
       [("address", VString "https://vault.test:8200");
        ("token", VString "static-root-token");
        ("client_auth",
         VArray [VObject (list_to_map [("cert_file", VString "a.pem");
                                       ("key_file", VString "a.key")]);
                 VObject (list_to_map [("cert_file", VString "b.pem");
                                       ("key_file", VString "b.key")])])] |}.

(** [env] with a TLS configuration step that answers [r]. *)
Definition with_ConfigureTLS (env : Env) (r : option error) : Env :=
  {| ioutil_ReadFile := ioutil_ReadFile env;
     http_Do := http_Do env;
     url_Parse_ok := url_Parse_ok env;
     json_Unmarshal := json_Unmarshal env;
     json_Marshal := json_Marshal env;
     ConfigureTLS := λ _, r;
     api_NewClient := api_NewClient env;
     Logical_Read := Logical_Read env;
     Logical_Write := Logical_Write env;
     time_Now := time_Now env |}.

Definition static_config : ResourceData :=
  bag [("address", "https://vault.test:8200");
       ("token", "static-root-token");
       ("github_org", "acme");
       ("namespace_domain", "acme.io")].

Definition refused_answer : option http_Response * option error :=
  (None, Some "dial tcp: connection refused").


Definition approle_backend : Env :=
  backend_env
    (λ _, (Some (secret_with [("role_id", VString "rid-1")]), None))
    (λ _ _, (Some (secret_with [("secret_id", VString "sid-1")]), None))
    (λ _, "null") sample_time.

Definition my_repo : ResourceData := bag [("repository", "my-repo")].

Definition pki_backend : Env :=
  backend_env (λ _, (None, None))
    (λ uri _,
       if bool_decide (uri = "pki_int/issue/acme")
       then (Some (secret_with [("serial_number", VString "12:34:AB");
                                ("certificate", VString "PEM")]), None)
       else (None, None))
    (λ _, "null") sample_time.

(** ** Reading a login body back as JSON

    A reader for the one shape the login body is meant to have: the
    object with the single member token whose value is a string literal
    written without escapes (RFC 8259: every character but the quote, the
    backslash and the control characters may stand for itself). *)

Definition json_plain_char (c : Ascii.ascii) : bool :=
  negb (Nat.eqb (Ascii.nat_of_ascii c) 34)
  && negb (Nat.eqb (Ascii.nat_of_ascii c) 92)
  && Nat.leb 32 (Ascii.nat_of_ascii c).

Fixpoint json_plain (s : string) : bool :=
  match s with
  | EmptyString => true
  | String c rest => json_plain_char c && json_plain rest
  end.

(** The literal whose opening quote has just been read: its content and
    the text after its closing quote.  An escape, a control character or
    a missing closing quote gives [None]. *)
Fixpoint read_plain_literal (s : string) : option (string * string) :=
  match s with
  | EmptyString => None
  | String c rest =>
      if Nat.eqb (Ascii.nat_of_ascii c) 34 then Some (EmptyString, rest)
      else if json_plain_char c
      then match read_plain_literal rest with
           | Some (v, after) => Some (String c v, after)
           | None => None
           end
      else None
  end.

Fixpoint strip_prefix (p s : string) : option string :=
  match p, s with
  | EmptyString, _ => Some s
  | String a p', String b s' =>
      if Ascii.eqb a b then strip_prefix p' s' else None
  | String _ _, EmptyString => None
  end.

(** The token of a body that is exactly the token object. *)
Definition token_of_body (body : string) : option string :=
  match strip_prefix ("{" +:+ dq +:+ "token" +:+ dq +:+ ":" +:+ dq) body with
  | Some lit =>
      match read_plain_literal lit with
      | Some (v, after) =>
          if bool_decide (after = "}") then Some v else None
      | None => None
      end
  | None => None
  end.




(** * Properties *)

(** ** Strings and attribute bags *)

Lemma append_assoc (a b c : string) : (a +:+ b) +:+ c = a +:+ (b +:+ c).
Proof.
  induction a as [|x a IH]; [done|].
  change (String x ((a +:+ b) +:+ c) = String x (a +:+ (b +:+ c))).
  by rewrite IH.
Qed.

Lemma is_empty_false (s : string) : s ≠ EmptyString → is_empty s = false.
Proof. intros H. unfold is_empty. by apply bool_decide_eq_false. Qed.

Lemma is_empty_true (s : string) : s = EmptyString → is_empty s = true.
Proof. intros H. unfold is_empty. by apply bool_decide_eq_true. Qed.

Lemma login_url_eq (A N O : string) :
  A +:+ "/v1/auth/" +:+ ("github/" +:+ N +:+ "/" +:+ O) +:+ "/login"
  = login_url A N O.
Proof.
  unfold login_url. by rewrite !append_assoc.
Qed.

Lemma githubLogin_run env d ev :
  complete_triple d → ca_readable env d →
  url_Parse_ok env (URL (login_request d)) = true →
  githubLogin env {| rd := d; sent := ev |}
  = let s' := {| rd := d;
                 sent := ev ++ [EvHttp (login_client env d) (login_request d)] |} in
    match http_Do env (login_client env d) (login_request d) with
    | (_, Some err) => (Returns (EmptyString, Some err), s')
    | (None, None) =>
        (Returns (EmptyString,
                  Some "No response from vault during approle auth"), s')
    | (Some resp, None) =>
        if negb (StatusCode resp =? 200)
        then (Returns (EmptyString,
                       Some ("Vault authentication to GitHub Status "
                             +:+ fmt_d (StatusCode resp))), s')
        else match json_Unmarshal env (RespBody resp) with
             | (_, Some err) => (Returns (EmptyString, Some err), s')
             | (payload, None) =>
                 match Auth payload with
                 | None => (Panics nil_deref, s')
                 | Some auth => (Returns (ClientToken auth, None), s')
                 end
             end
    end.
Proof.
  intros (HP & HO & HN) Hca Hurl.
  unfold githubLogin, bind, Get_string. simpl.
  rewrite (is_empty_false _ HP), (is_empty_false _ HO), (is_empty_false _ HN).
  simpl.
  rewrite login_url_eq.
  fold (login_body (str_attr d "personal_access_token")).
  unfold http_NewRequest, login_client. simpl in Hurl. rewrite Hurl.
  assert (Hrest : ∀ c : http_Client,
    bind (client_Do env c (Some (login_request d)))
      (λ r, match r with
            | (_, Some err) => ret (EmptyString, Some err)
            | (None, None) =>
                ret (EmptyString,
                     Some "No response from vault during approle auth")
            | (Some resp, None) =>
                if negb (StatusCode resp =? 200)
                then ret (EmptyString,
                          Some ("Vault authentication to GitHub Status "
                                +:+ fmt_d (StatusCode resp)))
                else match json_Unmarshal env (RespBody resp) with
                     | (_, Some err) => ret (EmptyString, Some err)
                     | (payload, None) =>
                         match Auth payload with
                         | None => panic nil_deref
                         | Some auth => ret (ClientToken auth, None)
                         end
                     end
            end) {| rd := d; sent := ev |}
    = let s' := {| rd := d; sent := ev ++ [EvHttp c (login_request d)] |} in
      match http_Do env c (login_request d) with
      | (_, Some err) => (Returns (EmptyString, Some err), s')
      | (None, None) =>
          (Returns (EmptyString,
                    Some "No response from vault during approle auth"), s')
      | (Some resp, None) =>
          if negb (StatusCode resp =? 200)
          then (Returns (EmptyString,
                         Some ("Vault authentication to GitHub Status "
                               +:+ fmt_d (StatusCode resp))), s')
          else match json_Unmarshal env (RespBody resp) with
               | (_, Some err) => (Returns (EmptyString, Some err), s')
               | (payload, None) =>
                   match Auth payload with
                   | None => (Panics nil_deref, s')
                   | Some auth => (Returns (ClientToken auth, None), s')
                   end
               end
      end).
  { intros c. unfold bind, client_Do, emit, ret, panic. simpl.
    destruct (http_Do env c (login_request d)) as [[resp|] [err|]]; try done.
    destruct (negb (StatusCode resp =? 200)); [done|].
    destruct (json_Unmarshal env (RespBody resp)) as [payload [err|]]; [done|].
    by destruct (Auth payload). }
  destruct (is_empty (str_attr d "ca_cert_file")) eqn:Hemp; simpl.
  - apply Hrest.
  - destruct Hca as [Hca|Hca].
    { by rewrite (is_empty_true _ Hca) in Hemp. }
    destruct (ioutil_ReadFile env (str_attr d "ca_cert_file")) as [caCert o].
    simpl in Hca. subst o. apply Hrest.
Qed.

(** ** Federated login *)






Example githubLogin_scenario_body :
  token_of_body (login_body "pat123") = Some "pat123"
  ∧ json_plain "pat123" = true.
Proof. split; vm_compute; reflexivity. Qed.

Example githubLogin_scenario_token :
  (githubLogin (stub_env EmptyString (ok_answer (auth_body "tok-xyz")))
     (fresh scenario_config)).1
  = Returns ("tok-xyz", None).
Proof. vm_compute. reflexivity. Qed.

(** Answers that are not a success, and network failures, come back as
    errors that carry the status or the cause. *)
Lemma githubLogin_failed_answer
    (env : Env) (d : ResourceData) (ev : list event) :
  complete_triple d → ca_readable env d →
  url_Parse_ok env (URL (login_request d)) = true →
  (∀ resp err,
     http_Do env (login_client env d) (login_request d) = (resp, Some err) →
     (githubLogin env {| rd := d; sent := ev |}).1
     = Returns (EmptyString, Some err))
  ∧ (∀ resp,
       http_Do env (login_client env d) (login_request d) = (Some resp, None) →
       StatusCode resp ≠ 200 →
       (githubLogin env {| rd := d; sent := ev |}).1
       = Returns (EmptyString,
                  Some ("Vault authentication to GitHub Status "
                        +:+ fmt_d (StatusCode resp)))).
Proof.
  intros Ht Hca Hurl.
  pose proof (githubLogin_run env d ev Ht Hca Hurl) as Hrun.
  cbv zeta in Hrun. split.
  - intros resp err Hdo. rewrite Hrun, Hdo. by destruct resp.
  - intros resp Hdo Hst. rewrite Hrun, Hdo.
    by apply Z.eqb_neq in Hst as ->.
Qed.

(** A success answer that decodes to a secret with a nil [Auth] makes the
    login panic. *)
Lemma githubLogin_nil_Auth_panics
    (env : Env) (d : ResourceData) (ev : list event) resp payload :
  complete_triple d → ca_readable env d →
  url_Parse_ok env (URL (login_request d)) = true →
  http_Do env (login_client env d) (login_request d) = (Some resp, None) →
  StatusCode resp = 200 →
  json_Unmarshal env (RespBody resp) = (payload, None) →
  Auth payload = None →
  (githubLogin env {| rd := d; sent := ev |}).1 = Panics nil_deref.
Proof.
  intros Ht Hca Hurl Hdo Hst Hdec Hauth.
  rewrite (githubLogin_run env d ev Ht Hca Hurl). cbv zeta.
  by rewrite Hdo, Hst, Hdec, Hauth.
Qed.

(** C2: a status-200 answer whose body is the empty JSON object decodes to
    a secret with a nil [Auth]; [githubLogin] dereferences it and panics,
    and so does [providerConfigure].  With an auth object that has no
    client token the login returns the empty token and a nil error. *)
Theorem githubLogin_missing_auth_panics :
  (githubLogin (stub_env EmptyString (ok_answer "{}"))
     (fresh scenario_config)).1 = Panics nil_deref
  ∧ (providerConfigure (stub_env EmptyString (ok_answer "{}"))
       (fresh scenario_config)).1 = Panics nil_deref
  ∧ (githubLogin
       (stub_env EmptyString
          (ok_answer ("{" +:+ dq +:+ "auth" +:+ dq +:+ ":{}}")))
       (fresh scenario_config)).1 = Returns (EmptyString, None).
Proof. split_and!; vm_compute; reflexivity. Qed.

(** The client the login request goes out with. *)
Lemma login_client_Timeout (env : Env) (d : ResourceData) :
  Timeout (login_client env d)
  = if is_empty (str_attr d "ca_cert_file") then 10 * time_Second else 0.
Proof. unfold login_client. by destruct (is_empty _). Qed.

(** With a CA file the request goes out with no timeout at all. *)
Lemma githubLogin_ca_client (env : Env) (d : ResourceData) (ev : list event) :
  complete_triple d →
  str_attr d "ca_cert_file" ≠ EmptyString →
  (ioutil_ReadFile env (str_attr d "ca_cert_file")).2 = None →
  url_Parse_ok env (URL (login_request d)) = true →
  ∃ c, sent (githubLogin env {| rd := d; sent := ev |}).2
       = (ev ++ [EvHttp c (login_request d)])%list
       ∧ Timeout c = 0.
Proof.
  intros Ht Hfile Hread Hurl.
  assert (Hca : ca_readable env d) by by right.
  exists (login_client env d). split.
  - rewrite (githubLogin_run env d ev Ht Hca Hurl). cbv zeta.
    destruct (http_Do env _ _) as [[resp|] [err|]]; try done.
    destruct (negb (StatusCode resp =? 200)); [done|].
    destruct (json_Unmarshal env (RespBody resp)) as [payload [err|]];
      [done|].
    by destruct (Auth payload).
  - by rewrite login_client_Timeout, (is_empty_false _ Hfile).
Qed.

(** C4: with a readable [ca_cert_file] the login request is sent by the
    client that was rebuilt around the CA pool, whose [Timeout] is zero
    (no timeout); without a CA file the client carries ten seconds. *)
Theorem githubLogin_ca_client_has_no_timeout :
  sent (githubLogin
          (stub_env "/etc/ssl/vault-ca.pem" (ok_answer (auth_body "tok-xyz")))
          (fresh ca_config)).2
  = [EvHttp {| Timeout := 0;
               Transport := Some ["-----BEGIN CERTIFICATE-----"] |}
       (login_request ca_config)]
  ∧ sent (githubLogin
            (stub_env "/etc/ssl/vault-ca.pem" (ok_answer (auth_body "tok-xyz")))
            (fresh scenario_config)).2
    = [EvHttp {| Timeout := 10 * time_Second; Transport := None |}
         (login_request scenario_config)].
Proof. split; vm_compute; reflexivity. Qed.

(** ** Computations that leave the resource data alone *)

Lemma keeps_rd_ret {A} (a : A) : keeps_rd (ret a).
Proof. by intros s. Qed.

Lemma keeps_rd_panic {A} (why : string) : keeps_rd (@panic A why).
Proof. by intros s. Qed.

Lemma keeps_rd_emit (e : event) : keeps_rd (emit e).
Proof. by intros s. Qed.

Lemma keeps_rd_Get_string (k : string) : keeps_rd (Get_string k).
Proof. by intros s. Qed.

Lemma keeps_rd_bind {A B} (m : Go A) (f : A → Go B) :
  keeps_rd m → (∀ a, keeps_rd (f a)) → keeps_rd (bind m f).
Proof.
  intros Hm Hf s. unfold bind. specialize (Hm s).
  destruct (m s) as [[a|why] s']; simpl in *; [|done].
  by rewrite Hf.
Qed.

Create HintDb go_frame.
#[local] Hint Resolve keeps_rd_ret keeps_rd_panic keeps_rd_emit
  keeps_rd_Get_string : go_frame.

Ltac frame_step :=
  match goal with
  | |- keeps_rd (bind _ _) => apply keeps_rd_bind; [|intros ?]
  | |- keeps_rd (if ?b then _ else _) => destruct b
  | |- keeps_rd (match ?x with _ => _ end) => destruct x
  | |- keeps_rd _ => solve [auto with go_frame]
  end.

Lemma keeps_rd_client_Do env c req : keeps_rd (client_Do env c req).
Proof. unfold client_Do. repeat frame_step. Qed.

Lemma githubLogin_keeps_rd env : keeps_rd (githubLogin env).
Proof.
  unfold githubLogin. cbv zeta.
  repeat first [apply keeps_rd_client_Do | frame_step].
Qed.

(** ** Configure *)






Example providerConfigure_uses_login_token :
  (providerConfigure (stub_env EmptyString (ok_answer (auth_body "tok-xyz")))
     (fresh both_config)).1
  = Returns
      (Some {| client :=
                 {| client_config :=
                      {| Address := "https://vault.test:8200";
                         TLS := Some {| CACert := EmptyString;
                                        CAPath := EmptyString;
                                        Insecure := false;
                                        ClientCert := EmptyString;
                                        ClientKey := EmptyString |} |};
                    client_token := "tok-xyz" |};
               githubOrg := "acme";
               namespaceDomain := "acme.io" |}, None).
Proof. vm_compute. reflexivity. Qed.

(** ** AppRole *)

Lemma is_Some_bool {A} (o : option A) :
  bool_decide (is_Some o) = match o with Some _ => true | None => false end.
Proof.
  destruct o; [by apply bool_decide_eq_true|].
  apply bool_decide_eq_false. by intros [? ?].
Qed.

Section approle.
Variable env : Env.
Variable meta : ResourceContext.
Variable d : ResourceData.
Variable ev : list event.

Let s : store := {| rd := d; sent := ev |}.
Let role_answer :=
  Logical_Read env (client meta) (approle_path meta d +:+ "/role-id").
Let secret_answer :=
  Logical_Write env (client meta) (approle_path meta d +:+ "/secret-id") ∅.

Lemma approleWrite_role_step_fails :
  answer_lacks "role_id" role_answer →
  ∃ err, approleWrite env meta s
         = (Returns (Some err),
            {| rd := d;
               sent := ev ++ [EvRead (approle_path meta d +:+ "/role-id")] |}).
Proof.
  intros H. unfold approleWrite, bind, logical_Read, emit, ret, Get_string.
  simpl. fold (approle_path meta d). fold role_answer.
  destruct role_answer as [[sr|] [e|]]; simpl; eauto.
  destruct H as [H|[H|(sec & [= <-] & H)]]; try done.
  rewrite is_Some_bool, H. simpl. eauto.
Qed.

Lemma approleWrite_secret_step_fails roleID :
  answer_has "role_id" roleID role_answer →
  answer_lacks "secret_id" secret_answer →
  ∃ err, approleWrite env meta s
         = (Returns (Some err),
            {| rd := d;
               sent := ev ++ [EvRead (approle_path meta d +:+ "/role-id")]
                          ++ [EvWrite (approle_path meta d +:+ "/secret-id") ∅]
            |}).
Proof.
  intros (sr & Hr & Hrole) H.
  unfold approleWrite, bind, logical_Read, logical_Write, emit, ret,
    Get_string.
  simpl. fold (approle_path meta d). fold role_answer. rewrite Hr.
  rewrite is_Some_bool, Hrole. simpl. fold secret_answer.
  rewrite <- app_assoc.
  destruct secret_answer as [[sec|] [e|]]; simpl; eauto.
  destruct H as [H|[H|(sec' & [= <-] & H)]]; try done.
  rewrite is_Some_bool, H. simpl. eauto.
Qed.

Lemma approleWrite_succeeds roleID secretID :
  answer_has "role_id" roleID role_answer →
  answer_has "secret_id" secretID secret_answer →
  approleWrite env meta s
  = (Returns None,
     {| rd := approle_recorded meta d roleID secretID;
        sent := ev ++ [EvRead (approle_path meta d +:+ "/role-id")]
                   ++ [EvWrite (approle_path meta d +:+ "/secret-id") ∅] |}).
Proof.
  intros (sr & Hr & Hrole) (sec & Hw & Hsec).
  unfold approleWrite, bind, logical_Read, logical_Write, emit, ret,
    Get_string.
  simpl. fold (approle_path meta d). fold role_answer. rewrite Hr.
  rewrite is_Some_bool, Hrole. simpl. fold secret_answer. rewrite Hw.
  rewrite is_Some_bool, Hsec. simpl. by rewrite <- app_assoc.
Qed.

(** Whatever the backend answers, Create changes the resource data only
    on the path where both answers carry their field. *)
Lemma approleWrite_changes_only_on_success :
  rd (approleWrite env meta s).2 ≠ d →
  ∃ roleID secretID,
    answer_has "role_id" roleID role_answer
    ∧ answer_has "secret_id" secretID secret_answer.
Proof.
  unfold approleWrite, bind, logical_Read, logical_Write, emit, ret,
    Get_string.
  simpl. fold (approle_path meta d). fold role_answer.
  destruct role_answer as [[sr|] [e|]]; simpl; try done.
  rewrite is_Some_bool.
  destruct (Data sr !! "role_id") as [v|] eqn:Hrole; simpl; [|done].
  destruct v; simpl; try done.
  fold secret_answer.
  destruct secret_answer as [[sec|] [e|]]; simpl; try done.
  rewrite is_Some_bool.
  destruct (Data sec !! "secret_id") as [v|] eqn:Hsec; simpl; [|done].
  destruct v; simpl; try done.
  intros _. eexists _, _. split; by eexists.
Qed.
End approle.

(** C5: if the role-id answer is an error, no object, or lacks role_id,
    or the role-id answer is good and the secret-id answer is an error, no
    object, or lacks secret_id, then Create returns an error and the
    resource data (identity and attributes) is what it was; and if Create
    changes the resource data at all, both answers carried their field, the
    call returned nil, and identity, role_id, secret_id and auth_path were
    all recorded together. *)
Theorem approleWrite_no_partial_credential
    (env : Env) (meta : ResourceContext) (d : ResourceData) (ev : list event) :
  let s := {| rd := d; sent := ev |} in
  let role_answer :=
    Logical_Read env (client meta) (approle_path meta d +:+ "/role-id") in
  let secret_answer :=
    Logical_Write env (client meta) (approle_path meta d +:+ "/secret-id") ∅ in
  (answer_lacks "role_id" role_answer
   ∨ (∃ roleID, answer_has "role_id" roleID role_answer
                ∧ answer_lacks "secret_id" secret_answer) →
   (∃ err, (approleWrite env meta s).1 = Returns (Some err))
   ∧ rd (approleWrite env meta s).2 = d)
  ∧ (rd (approleWrite env meta s).2 ≠ d →
     ∃ roleID secretID,
       answer_has "role_id" roleID role_answer
       ∧ answer_has "secret_id" secretID secret_answer
       ∧ (approleWrite env meta s).1 = Returns None
       ∧ rd (approleWrite env meta s).2
         = approle_recorded meta d roleID secretID).
Proof.
  intros s role_answer secret_answer. subst s role_answer secret_answer.
  split.
  - intros [H|(roleID & Hr & H)].
    + destruct (approleWrite_role_step_fails env meta d ev H) as [err ->].
      eauto.
    + destruct (approleWrite_secret_step_fails env meta d ev roleID Hr H)
        as [err ->].
      eauto.
  - intros Hne.
    destruct (approleWrite_changes_only_on_success env meta d ev Hne)
      as (roleID & secretID & Hr & Hs).
    exists roleID, secretID. split_and!; [done..| |].
    + by rewrite (approleWrite_succeeds env meta d ev _ _ Hr Hs).
    + by rewrite (approleWrite_succeeds env meta d ev _ _ Hr Hs).
Qed.

(** Create against a backend whose secret-id generation fails: an error,
    one read and one write sent, nothing recorded. *)
Example approleWrite_failed_generation :
  approleWrite
    (backend_env
       (λ _, (Some (secret_with [("role_id", VString "rid-1")]), None))
       (λ _ _, (None, Some "permission denied"))
       (λ _, "null") sample_time)
    acme_context (fresh (bag [("repository", "my-repo")]))
  = (Returns (Some "Error generating SecretID from Vault: permission denied"),
     {| rd := bag [("repository", "my-repo")];
        sent := [EvRead "auth/approle/acme.io/acme/role/my-repo/role-id";
                 EvWrite "auth/approle/acme.io/acme/role/my-repo/secret-id" ∅]
     |}).
Proof. vm_compute. reflexivity. Qed.

Example approleWrite_records_all :
  let r := approleWrite
    (backend_env
       (λ _, (Some (secret_with [("role_id", VString "rid-1")]), None))
       (λ _ _, (Some (secret_with [("secret_id", VString "sid-1")]), None))
       (λ _, "null") sample_time)
    acme_context (fresh (bag [("repository", "my-repo")])) in
  r.1 = Returns None
  ∧ Id (rd r.2) = "auth/approle/acme.io/acme/role/my-repo"
  ∧ attrs (rd r.2) !! "role_id" = Some (VString "rid-1")
  ∧ attrs (rd r.2) !! "secret_id" = Some (VString "sid-1")
  ∧ attrs (rd r.2) !! "auth_path"
    = Some (VString "https://vault.test:8200/v1/auth/approle/acme.io/acme/login").
Proof. vm_compute. split_and!; reflexivity. Qed.

(** ** PKI certificates *)

Section pki.
Variable env : Env.
Variable meta : ResourceContext.
Variable d : ResourceData.
Variable ev : list event.

Let s : store := {| rd := d; sent := ev |}.

Lemma pkiDelete_run :
  pkiDelete env meta s
  = let uri := str_attr d "path" +:+ "/revoke" in
    let data : gmap string value := {["serial_number" := VString (Id d)]} in
    let s1 := {| rd := d; sent := ev ++ [EvWrite uri data] |} in
    match Logical_Write env (client meta) uri data with
    | (_, Some err) =>
        (Returns (Some ("error writing to Vault: " +:+ err)), s1)
    | (None, None) => (Panics nil_deref, s1)
    | (Some sec, None) =>
        (Returns None,
         {| rd := {| Id := Id d;
                     attrs := <["revocation_time" :=
                                  index (Data sec) "revocation_time"]>
                                (attrs d) |};
            sent := ev ++ [EvWrite uri data] |})
    end.
Proof.
  unfold pkiDelete, secret_Data, bind, logical_Write, emit, ret,
    Get_string, Get_Id, panic, Set_.
  simpl. rewrite insert_empty.
  by destruct (Logical_Write env _ _ _) as [[sec|] [err|]].
Qed.

Lemma pkiWrite_run :
  pkiWrite env meta s
  = let uri := pki_issue_uri meta d in
    let data := pki_issue_body d in
    let s1 := {| rd := d; sent := ev ++ [EvWrite uri data] |} in
    match Logical_Write env (client meta) uri data with
    | (_, Some err) =>
        (Returns (Some ("error writing to Vault: " +:+ err)), s1)
    | (None, None) => (Panics nil_deref, s1)
    | (Some sec, None) =>
        match Data sec !! "serial_number" with
        | Some (VString id) =>
            (Returns None,
             {| rd := {| Id := id;
                         attrs :=
                           <["serial_number" :=
                               index (Data sec) "serial_number"]>
                          (<["private_key_type" :=
                               index (Data sec) "private_key_type"]>
                          (<["issuing_ca" := index (Data sec) "issuing_ca"]>
                          (<["private_key" :=
                               index (Data sec) "private_key"]>
                          (<["certificate" :=
                               index (Data sec) "certificate"]>
                             (attrs d))))) |};
                sent := ev ++ [EvWrite uri data] |})
        | _ => (Panics bad_assert, s1)
        end
    end.
Proof.
  unfold pkiWrite, secret_Data, bind, logical_Write, emit, ret,
    Get_string, panic, SetId, Set_.
  simpl. fold (pki_issue_body d). fold (pki_issue_uri meta d).
  destruct (Logical_Write env _ _ _) as [[sec|] [err|]]; try done.
  unfold assert_string.
  destruct (Data sec !! "serial_number") as [[]|]; done.
Qed.
End pki.

(** C7: Delete sends one write, to the mount path followed by /revoke,
    whose body is exactly the recorded serial number under serial_number;
    a write error comes back as a non-nil error and leaves the resource
    data untouched; a successful write stores the answer's revocation_time;
    and the resource data changes only when the write succeeded. *)
Theorem pkiDelete_sends_serial_and_stamps_on_success
    (env : Env) (meta : ResourceContext) (d : ResourceData) (ev : list event) :
  let S := Id d in
  let M := str_attr d "path" in
  let s := {| rd := d; sent := ev |} in
  let body : gmap string value := {["serial_number" := VString S]} in
  let answer := Logical_Write env (client meta) (M +:+ "/revoke") body in
  sent (pkiDelete env meta s).2
    = (ev ++ [EvWrite (M +:+ "/revoke") body])%list
  ∧ (∀ resp err,
       answer = (resp, Some err) →
       (pkiDelete env meta s).1
         = Returns (Some ("error writing to Vault: " +:+ err))
       ∧ rd (pkiDelete env meta s).2 = d)
  ∧ (∀ sec,
       answer = (Some sec, None) →
       (pkiDelete env meta s).1 = Returns None
       ∧ rd (pkiDelete env meta s).2
         = {| Id := S;
              attrs := <["revocation_time" :=
                           index (Data sec) "revocation_time"]> (attrs d) |})
  ∧ (rd (pkiDelete env meta s).2 ≠ d → ∃ sec, answer = (Some sec, None)).
Proof.
  intros S M s body answer. subst S M s body answer.
  rewrite pkiDelete_run. cbv zeta.
  destruct (Logical_Write env _ _ _) as [[sec|] [e|]]; simpl;
    split_and!; try done; try (intros ? ? [= <- <-]; done);
    try (intros ? [= <-]; done); eauto.
Qed.

Example pkiDelete_revokes :
  pkiDelete
    (backend_env (λ _, (None, None))
       (λ _ _, (Some (secret_with [("revocation_time", VNumber "1494325230")]),
                None))
       (λ _, "null") sample_time)
    acme_context (fresh issued_cert)
  = (Returns None,
     {| rd := {| Id := "12:34:AB";
                 attrs := <["revocation_time" := VNumber "1494325230"]>
                            (attrs issued_cert) |};
        sent := [EvWrite "pki_int/revoke"
                   {["serial_number" := VString "12:34:AB"]}] |}).
Proof. vm_compute. reflexivity. Qed.

Example pkiDelete_write_error :
  pkiDelete
    (backend_env (λ _, (None, None)) (λ _ _, (None, Some "permission denied"))
       (λ _, "null") sample_time)
    acme_context (fresh issued_cert)
  = (Returns (Some "error writing to Vault: permission denied"),
     {| rd := issued_cert;
        sent := [EvWrite "pki_int/revoke"
                   {["serial_number" := VString "12:34:AB"]}] |}).
Proof. vm_compute. reflexivity. Qed.

(** C8: AppRole Read and Certificate Read return nil and hand back the
    store they were given: the same identity and attributes (so a recorded
    secret_id stays), and no request added to the trace. *)
Theorem read_is_a_noop (s : store) :
  approleRead s = (Returns None, s)
  ∧ pkiRead s = (Returns None, s)
  ∧ sent (approleRead s).2 = sent s
  ∧ sent (pkiRead s).2 = sent s
  ∧ attrs (rd (approleRead s).2) !! "secret_id"
    = attrs (rd s) !! "secret_id".
Proof. by split_and!. Qed.

(** Reading after a successful Create keeps the secret_id Create wrote. *)
Lemma approleRead_after_Write env meta d ev roleID secretID :
  answer_has "role_id" roleID
    (Logical_Read env (client meta) (approle_path meta d +:+ "/role-id")) →
  answer_has "secret_id" secretID
    (Logical_Write env (client meta) (approle_path meta d +:+ "/secret-id") ∅) →
  let s1 := (approleWrite env meta {| rd := d; sent := ev |}).2 in
  attrs (rd (approleRead s1).2) !! "secret_id"
  = Some (VString secretID)
  ∧ sent (approleRead s1).2 = sent s1.
Proof.
  intros Hr Hs s1. subst s1.
  rewrite (approleWrite_succeeds env meta d ev _ _ Hr Hs). simpl.
  split; [|done].
  rewrite lookup_insert_ne by done. by rewrite lookup_insert_eq.
Qed.

(** C10: when the issuance write returns no error, Create reads the answer
    unchecked: a nil secret, a missing serial_number or one that is not a
    string makes it panic, with nothing recorded; AppRole Create, given a
    nil answer or an answer without its field, returns an error instead. *)
Theorem pkiWrite_unchecked_answer_panics
    (env : Env) (meta : ResourceContext) (d : ResourceData) (ev : list event)
    (answer : option Secret) :
  Logical_Write env (client meta) (pki_issue_uri meta d) (pki_issue_body d)
    = (answer, None) →
  (answer = None
   ∨ ∃ sec, answer = Some sec
            ∧ (Data sec !! "serial_number" = None
               ∨ ∃ v, Data sec !! "serial_number" = Some v
                      ∧ ∀ str, v ≠ VString str)) →
  (∃ why, (pkiWrite env meta {| rd := d; sent := ev |}).1 = Panics why)
  ∧ rd (pkiWrite env meta {| rd := d; sent := ev |}).2 = d
  ∧ (answer_lacks "role_id"
       (Logical_Read env (client meta) (approle_path meta d +:+ "/role-id")) →
     ∃ err, (approleWrite env meta {| rd := d; sent := ev |}).1
            = Returns (Some err)).
Proof.
  intros Hw Hbad. rewrite pkiWrite_run. cbv zeta. rewrite Hw.
  split_and!.
  - destruct Hbad as [->|(sec & -> & [->|(v & -> & Hv)])]; eauto.
    destruct v; eauto. by destruct (Hv s).
  - destruct Hbad as [->|(sec & -> & [->|(v & -> & Hv)])]; try done.
    destruct v; try done. by destruct (Hv s).
  - intros H.
    destruct (approleWrite_role_step_fails env meta d ev H) as [err ->].
    eauto.
Qed.

Lemma pkiWrite_nil_answer_panics :
  let env := backend_env (λ _, (None, None)) (λ _ _, (None, None))
               (λ _, "null") sample_time in
  (∃ why, (pkiWrite env acme_context (fresh cert_request)).1 = Panics why)
  ∧ rd (pkiWrite env acme_context (fresh cert_request)).2 = cert_request
  ∧ (answer_lacks "role_id"
       (Logical_Read env (client acme_context)
          (approle_path acme_context cert_request +:+ "/role-id")) →
     ∃ err, (approleWrite env acme_context (fresh cert_request)).1
            = Returns (Some err)).
Proof.
  intros env.
  apply (pkiWrite_unchecked_answer_panics env acme_context cert_request []
           None).
  - reflexivity.
  - left. reflexivity.
Defined.

Example pkiWrite_missing_serial_panics :
  (pkiWrite
     (backend_env (λ _, (None, None))
        (λ _ _, (Some (secret_with [("certificate", VString "PEM")]), None))
        (λ _, "null") sample_time)
     acme_context (fresh cert_request)).1
  = Panics bad_assert
  ∧ (approleWrite
       (backend_env (λ _, (None, None)) (λ _ _, (None, None))
          (λ _, "null") sample_time)
       acme_context (fresh (bag [("repository", "my-repo")]))).1
    = Returns (Some "Error reading RoleID from Vault: %!s(<nil>)").
Proof. split; vm_compute; reflexivity. Qed.

(** Issuing the certificate of the scenario: the write goes to
    pki_int/issue/acme with common_name and ttl, and the serial number of
    the answer becomes the identity. *)
Example pkiWrite_scenario :
  let r := pkiWrite
    (backend_env (λ _, (None, None))
       (λ _ _, (Some (secret_with [("serial_number", VString "12:34:AB")]),
                None))
       (λ _, "null") sample_time)
    acme_context (fresh cert_request) in
  r.1 = Returns None
  ∧ Id (rd r.2) = "12:34:AB"
  ∧ sent r.2 = [EvWrite "pki_int/issue/acme"
                  (<["ttl" := VString "8760h"]>
                     {["common_name" := VString "svc.acme.io"]})].
Proof. vm_compute. split_and!; reflexivity. Qed.

(** ** The generic-secret data source *)

Lemma flatten_entry_insert env k v m :
  flatten_entry env k v m = <[k := flat_value env v]> m.
Proof. by destruct v. Qed.

Lemma flatten_lookup env (data : gmap string value) (k : string) :
  flatten env data !! k = flat_value env <$> data !! k.
Proof.
  unfold flatten. revert k.
  apply (map_fold_weak_ind
           (λ (r : gmap string string) (m : gmap string value),
              ∀ k, r !! k = flat_value env <$> m !! k)).
  - intros k. by rewrite !lookup_empty.
  - intros i x m r Hi IH k. rewrite flatten_entry_insert.
    destruct (decide (i = k)) as [->|Hne].
    + by rewrite !lookup_insert_eq.
    + by rewrite !lookup_insert_ne.
Qed.

Lemma flatten_fmap env (data : gmap string value) :
  flatten env data = flat_value env <$> data.
Proof. apply map_eq. intros k. by rewrite flatten_lookup, lookup_fmap. Qed.

Lemma genericSecretDataSourceRead_run env meta d ev secret :
  Logical_Read env (client meta) (str_attr d "path") = (Some secret, None) →
  genericSecretDataSourceRead env meta {| rd := d; sent := ev |}
  = (Returns None,
     {| rd :=
          {| Id := RequestID secret;
             attrs :=
               <["lease_renewable" := VBool (Renewable secret)]>
              (<["lease_start_time" :=
                   VString (Format (time_Now env) "RFC3339")]>
              (<["lease_duration" := VInt (LeaseDuration secret)]>
              (<["lease_id" := VString (LeaseID secret)]>
              (<["data" := VObject (VString <$> flatten env (Data secret))]>
              (<["data_json" :=
                   VString (json_Marshal env (VObject (Data secret)))]>
                 (attrs d)))))) |};
        sent := ev ++ [EvRead (str_attr d "path")] |}).
Proof.
  intros Hr.
  unfold genericSecretDataSourceRead, bind, logical_Read, emit, ret,
    Get_string, SetId, Set_.
  simpl. by rewrite Hr.
Qed.

(** C6: after a successful Read of a payload D, the data attribute holds a
    flat string map with exactly the keys of D, in which a string entry of
    D is copied as it is and any other entry v is the JSON encoding of v;
    so when every entry of D is a string, the flat map is D itself. *)
Theorem genericSecretDataSourceRead_flattens
    (env : Env) (meta : ResourceContext) (d : ResourceData) (ev : list event)
    (secret : Secret) :
  Logical_Read env (client meta) (str_attr d "path") = (Some secret, None) →
  ∃ dataMap : gmap string string,
    attrs (rd (genericSecretDataSourceRead env meta
                 {| rd := d; sent := ev |}).2) !! "data"
      = Some (VObject (VString <$> dataMap))
    ∧ dom dataMap = dom (Data secret)
    ∧ (∀ k vs, Data secret !! k = Some (VString vs) → dataMap !! k = Some vs)
    ∧ (∀ k v, Data secret !! k = Some v → (∀ vs, v ≠ VString vs) →
         dataMap !! k = Some (json_Marshal env v))
    ∧ ((∀ k v, Data secret !! k = Some v → ∃ vs, v = VString vs) →
       VString <$> dataMap = Data secret).
Proof.
  intros Hr. exists (flatten env (Data secret)).
  rewrite (genericSecretDataSourceRead_run env meta d ev secret Hr). simpl.
  split_and!.
  - do 4 (rewrite lookup_insert_ne by done). by rewrite lookup_insert_eq.
  - rewrite flatten_fmap. apply dom_fmap_L.
  - intros k vs Hk. by rewrite flatten_lookup, Hk.
  - intros k v Hk Hv. rewrite flatten_lookup, Hk. simpl.
    destruct v; try done. by destruct (Hv s).
  - intros Hall. apply map_eq. intros k.
    rewrite lookup_fmap, flatten_lookup.
    destruct (Data secret !! k) as [v|] eqn:Hk; [|done].
    destruct (Hall k v Hk) as [vs ->]. done.
Qed.

Lemma genericSecretDataSourceRead_flattens_mixed :
  ∃ dataMap : gmap string string,
    attrs (rd (genericSecretDataSourceRead (secret_env sample_time)
                 acme_context (fresh (bag [("path", "secret/app")]))).2)
      !! "data"
      = Some (VObject (VString <$> dataMap))
    ∧ dom dataMap = dom (Data mixed_secret)
    ∧ (∀ k vs, Data mixed_secret !! k = Some (VString vs) →
         dataMap !! k = Some vs)
    ∧ (∀ k v, Data mixed_secret !! k = Some v → (∀ vs, v ≠ VString vs) →
         dataMap !! k = Some (json_Marshal (secret_env sample_time) v))
    ∧ ((∀ k v, Data mixed_secret !! k = Some v → ∃ vs, v = VString vs) →
       VString <$> dataMap = Data mixed_secret).
Proof.
  apply (genericSecretDataSourceRead_flattens (secret_env sample_time)
           acme_context (bag [("path", "secret/app")]) [] mixed_secret).
  reflexivity.
Defined.

Example flatten_mixed :
  flatten (secret_env sample_time) (Data mixed_secret)
  = list_to_map [("user", "svc"); ("port", "5432"); ("tls", "true")].
Proof. vm_compute. reflexivity. Qed.

(** The layout the data source passes to [Format] is the text RFC3339,
    not the layout constant: three 12-hour clock fields between the
    letters RFC and the digit 9. *)
Lemma Format_RFC3339_text (t : Time) :
  Format t "RFC3339"
  = "RFC" +:+ appendInt (hour12 t) 0 +:+ appendInt (hour12 t) 0
          +:+ appendInt (hour12 t) 0 +:+ "9".
Proof. reflexivity. Qed.

(** Every successful Read records that text, whatever the date. *)
Lemma genericSecretDataSourceRead_lease_start_text env meta d ev secret :
  Logical_Read env (client meta) (str_attr d "path") = (Some secret, None) →
  attrs (rd (genericSecretDataSourceRead env meta
               {| rd := d; sent := ev |}).2) !! "lease_start_time"
  = Some (VString ("RFC" +:+ appendInt (hour12 (time_Now env)) 0
                         +:+ appendInt (hour12 (time_Now env)) 0
                         +:+ appendInt (hour12 (time_Now env)) 0 +:+ "9")).
Proof.
  intros Hr.
  rewrite (genericSecretDataSourceRead_run env meta d ev secret Hr). simpl.
  rewrite lookup_insert_ne by done. rewrite lookup_insert_eq.
  by rewrite Format_RFC3339_text.
Qed.

(** C9: a Read at 2017-05-09T10:20:30Z records lease_start_time as the
    text RFC1010109, and a Read a day and 27 minutes later records the
    same text, while the RFC 3339 layout renders the two clocks apart;
    lease_id, lease_duration and lease_renewable are the answer's. *)
Theorem genericSecretDataSourceRead_lease_start_time :
  let bag0 := fresh (bag [("path", "secret/app")]) in
  let after now :=
    attrs (rd (genericSecretDataSourceRead (secret_env now)
                 acme_context bag0).2) in
  after sample_time !! "lease_start_time" = Some (VString "RFC1010109")
  ∧ after next_day !! "lease_start_time" = Some (VString "RFC1010109")
  ∧ Format sample_time time_RFC3339 = "2017-05-09T10:20:30Z"
  ∧ Format next_day time_RFC3339 = "2017-05-10T10:47:02Z"
  ∧ after sample_time !! "lease_id" = Some (VString "secret/app/lease-1")
  ∧ after sample_time !! "lease_duration" = Some (VInt 2764800)
  ∧ after sample_time !! "lease_renewable" = Some (VBool true).
Proof. vm_compute. split_and!; reflexivity. Qed.

(** Destroying the AppRole credential of the scenario: the stored
    secret_id goes to the destroy path, and a backend error comes back. *)
Example approleDelete_scenario :
  approleDelete
    (backend_env (λ _, (None, None)) (λ _ _, (None, Some "permission denied"))
       (λ _, "null") sample_time)
    acme_context
    (fresh {| Id := "auth/approle/acme.io/acme/role/my-repo";
              attrs := {["secret_id" := VString "sid-1"]} |})
  = (Returns (Some "Error Revoking secret_id: permission denied"),
     {| rd := {| Id := "auth/approle/acme.io/acme/role/my-repo";
                 attrs := {["secret_id" := VString "sid-1"]} |};
        sent := [EvWrite "auth/approle/acme.io/acme/role/my-repo/secret-id/destroy"
                   {["secret_id" := VString "sid-1"]}] |}).
Proof. vm_compute. reflexivity. Qed.

(** * Further properties of the provider *)

(** ** Federated login: the paths that fail *)

(** X1: when the personal access token, the organisation or the namespace
    is empty, the login returns the missing-field error at once: no file
    is read, no request is sent, and the store is untouched. *)
Theorem githubLogin_incomplete_triple
    (env : Env) (d : ResourceData) (ev : list event) :
  str_attr d "personal_access_token" = EmptyString
  ∨ str_attr d "github_org" = EmptyString
  ∨ str_attr d "namespace_domain" = EmptyString →
  githubLogin env {| rd := d; sent := ev |}
  = (Returns (EmptyString, Some missing_triple), {| rd := d; sent := ev |}).
Proof.
  intros H. unfold githubLogin, bind, Get_string. simpl.
  assert (Hor : is_empty (str_attr d "personal_access_token")
                || is_empty (str_attr d "github_org")
                || is_empty (str_attr d "namespace_domain") = true).
  { destruct H as [H|[H|H]]; rewrite (is_empty_true _ H);
      by rewrite ?orb_true_r. }
  by rewrite Hor.
Qed.

Lemma githubLogin_incomplete_triple_no_org :
  githubLogin (stub_env EmptyString (ok_answer (auth_body "tok-xyz")))
    (fresh (bag [("address", "https://vault.test:8200");
                 ("personal_access_token", "pat123");
                 ("namespace_domain", "acme.io")]))
  = (Returns (EmptyString, Some missing_triple),
     fresh (bag [("address", "https://vault.test:8200");
                 ("personal_access_token", "pat123");
                 ("namespace_domain", "acme.io")])).
Proof.
  apply (githubLogin_incomplete_triple
           (stub_env EmptyString (ok_answer (auth_body "tok-xyz")))
           (bag [("address", "https://vault.test:8200");
                 ("personal_access_token", "pat123");
                 ("namespace_domain", "acme.io")]) []).
  right. left. reflexivity.
Defined.

(** X2: with a complete triple and a CA file that cannot be read, the
    login returns the read error and sends no request. *)
Theorem githubLogin_unreadable_ca
    (env : Env) (d : ResourceData) (ev : list event) (err : error) :
  complete_triple d →
  str_attr d "ca_cert_file" ≠ EmptyString →
  (ioutil_ReadFile env (str_attr d "ca_cert_file")).2 = Some err →
  githubLogin env {| rd := d; sent := ev |}
  = (Returns (EmptyString, Some err), {| rd := d; sent := ev |}).
Proof.
  intros (HP & HO & HN) Hfile Hread.
  unfold githubLogin, bind, Get_string. simpl.
  rewrite (is_empty_false _ HP), (is_empty_false _ HO), (is_empty_false _ HN).
  simpl. rewrite (is_empty_false _ Hfile). simpl.
  destruct (ioutil_ReadFile env (str_attr d "ca_cert_file")) as [caCert o].
  simpl in Hread. by subst o.
Qed.

Lemma githubLogin_unreadable_ca_scenario :
  githubLogin (stub_env "/etc/ssl/other.pem" (ok_answer (auth_body "tok-xyz")))
    (fresh ca_config)
  = (Returns (EmptyString,
              Some "open /etc/ssl/vault-ca.pem: no such file or directory"),
     fresh ca_config).
Proof.
  apply (githubLogin_unreadable_ca
           (stub_env "/etc/ssl/other.pem" (ok_answer (auth_body "tok-xyz")))
           ca_config []).
  - repeat split; discriminate.
  - discriminate.
  - reflexivity.
Defined.

(** X3: once the request is out, every answer that is not a decodable 200
    comes back as an error with the empty token: the transport error as it
    is, a nil response as the no-response error, any other status as the
    status error with the code in decimal, and a body that does not decode
    as the decoder's error. *)
Theorem githubLogin_answer_errors
    (env : Env) (d : ResourceData) (ev : list event) :
  complete_triple d → ca_readable env d →
  url_Parse_ok env (URL (login_request d)) = true →
  (∀ resp err,
     http_Do env (login_client env d) (login_request d) = (resp, Some err) →
     (githubLogin env {| rd := d; sent := ev |}).1
     = Returns (EmptyString, Some err))
  ∧ (http_Do env (login_client env d) (login_request d) = (None, None) →
     (githubLogin env {| rd := d; sent := ev |}).1
     = Returns (EmptyString,
                Some "No response from vault during approle auth"))
  ∧ (∀ resp,
       http_Do env (login_client env d) (login_request d) = (Some resp, None) →
       StatusCode resp ≠ 200 →
       (githubLogin env {| rd := d; sent := ev |}).1
       = Returns (EmptyString,
                  Some ("Vault authentication to GitHub Status "
                        +:+ pretty (StatusCode resp))))
  ∧ (∀ resp payload err,
       http_Do env (login_client env d) (login_request d) = (Some resp, None) →
       StatusCode resp = 200 →
       json_Unmarshal env (RespBody resp) = (payload, Some err) →
       (githubLogin env {| rd := d; sent := ev |}).1
       = Returns (EmptyString, Some err)).
Proof.
  intros Ht Hca Hurl.
  pose proof (githubLogin_run env d ev Ht Hca Hurl) as Hrun.
  cbv zeta in Hrun. split_and!.
  - intros resp err Hdo. rewrite Hrun, Hdo. by destruct resp.
  - intros Hdo. by rewrite Hrun, Hdo.
  - intros resp Hdo Hst. rewrite Hrun, Hdo.
    by apply Z.eqb_neq in Hst as ->.
  - intros resp payload err Hdo Hst Hdec. by rewrite Hrun, Hdo, Hst, Hdec.
Qed.

Lemma githubLogin_answer_errors_forbidden :
  let env := stub_env EmptyString
               (Some {| StatusCode := 403; RespBody := "permission denied" |},
                None) in
  let d := scenario_config in
  (∀ resp err,
     http_Do env (login_client env d) (login_request d) = (resp, Some err) →
     (githubLogin env (fresh d)).1 = Returns (EmptyString, Some err))
  ∧ (http_Do env (login_client env d) (login_request d) = (None, None) →
     (githubLogin env (fresh d)).1
     = Returns (EmptyString,
                Some "No response from vault during approle auth"))
  ∧ (∀ resp,
       http_Do env (login_client env d) (login_request d) = (Some resp, None) →
       StatusCode resp ≠ 200 →
       (githubLogin env (fresh d)).1
       = Returns (EmptyString,
                  Some ("Vault authentication to GitHub Status "
                        +:+ pretty (StatusCode resp))))
  ∧ (∀ resp payload err,
       http_Do env (login_client env d) (login_request d) = (Some resp, None) →
       StatusCode resp = 200 →
       json_Unmarshal env (RespBody resp) = (payload, Some err) →
       (githubLogin env (fresh d)).1 = Returns (EmptyString, Some err)).
Proof.
  intros env d.
  apply (githubLogin_answer_errors env d []).
  - repeat split; discriminate.
  - left. reflexivity.
  - reflexivity.
Defined.

Example githubLogin_forbidden :
  (githubLogin
     (stub_env EmptyString
        (Some {| StatusCode := 403; RespBody := "permission denied" |}, None))
     (fresh scenario_config)).1
  = Returns (EmptyString, Some "Vault authentication to GitHub Status 403").
Proof. vm_compute. reflexivity. Qed.

(** X4: when the login URL does not parse, the request is nil and the
    call panics on it before anything is sent. *)
Theorem githubLogin_bad_url_panics
    (env : Env) (d : ResourceData) (ev : list event) :
  complete_triple d → ca_readable env d →
  url_Parse_ok env (URL (login_request d)) = false →
  githubLogin env {| rd := d; sent := ev |}
  = (Panics nil_deref, {| rd := d; sent := ev |}).
Proof.
  intros (HP & HO & HN) Hca Hurl.
  unfold githubLogin, bind, Get_string. simpl.
  rewrite (is_empty_false _ HP), (is_empty_false _ HO), (is_empty_false _ HN).
  simpl. rewrite login_url_eq. unfold http_NewRequest.
  simpl in Hurl. rewrite Hurl. simpl.
  destruct (is_empty (str_attr d "ca_cert_file")) eqn:Hemp; simpl; [done|].
  destruct Hca as [Hca|Hca].
  { by rewrite (is_empty_true _ Hca) in Hemp. }
  destruct (ioutil_ReadFile env (str_attr d "ca_cert_file")) as [caCert o].
  simpl in Hca. by subst o.
Qed.

Lemma githubLogin_bad_url_panics_scenario :
  githubLogin
    (with_url_Parse (stub_env EmptyString (ok_answer (auth_body "tok-xyz")))
       (λ _, false))
    (fresh scenario_config)
  = (Panics nil_deref, fresh scenario_config).
Proof.
  apply (githubLogin_bad_url_panics
           (with_url_Parse
              (stub_env EmptyString (ok_answer (auth_body "tok-xyz")))
              (λ _, false))
           scenario_config []).
  - repeat split; discriminate.
  - left. reflexivity.
  - reflexivity.
Defined.

(** X5: whatever the configuration and the environment, the login leaves
    the resource data as it is and adds at most one event to the trace, and
    that event is a POST to the login URL with the token body. *)
Theorem githubLogin_at_most_one_post (env : Env) (s : store) :
  rd (githubLogin env s).2 = rd s
  ∧ (sent (githubLogin env s).2 = sent s
     ∨ ∃ c : http_Client,
         sent (githubLogin env s).2
         = (sent s ++ [EvHttp c (login_request (rd s))])%list).
Proof.
  split; [apply githubLogin_keeps_rd|].
  destruct s as [d ev].
  unfold githubLogin, bind, Get_string. simpl.
  destruct (is_empty (str_attr d "personal_access_token")
            || is_empty (str_attr d "github_org")
            || is_empty (str_attr d "namespace_domain")); [by left|].
  simpl. rewrite login_url_eq.
  fold (login_body (str_attr d "personal_access_token")).
  assert (Hrest : ∀ (c : http_Client)
      (f : option http_Response * option error → Go (string * option error)),
    (∀ r s', (f r s').2 = s') →
    sent (bind (client_Do env c
                  (http_NewRequest env "POST"
                     (login_url (str_attr d "address")
                        (str_attr d "namespace_domain")
                        (str_attr d "github_org"))
                     (login_body (str_attr d "personal_access_token"))).1)
            f {| rd := d; sent := ev |}).2 = ev
    ∨ ∃ c0, sent (bind (client_Do env c
                  (http_NewRequest env "POST"
                     (login_url (str_attr d "address")
                        (str_attr d "namespace_domain")
                        (str_attr d "github_org"))
                     (login_body (str_attr d "personal_access_token"))).1)
            f {| rd := d; sent := ev |}).2
            = (ev ++ [EvHttp c0 (login_request d)])%list).
  { intros c f Hf. unfold http_NewRequest, client_Do, bind, emit, ret, panic.
    destruct (url_Parse_ok env _); simpl; [|by left].
    right. exists c. by rewrite Hf. }
  assert (Hf : ∀ (r : option http_Response * option error) (s' : store),
    (match r with
     | (_, Some err) => ret (EmptyString, Some err)
     | (None, None) =>
         ret (EmptyString, Some "No response from vault during approle auth")
     | (Some resp, None) =>
         if negb (StatusCode resp =? 200)
         then ret (EmptyString,
                   Some ("Vault authentication to GitHub Status "
                         +:+ fmt_d (StatusCode resp)))
         else match json_Unmarshal env (RespBody resp) with
              | (_, Some err) => ret (EmptyString, Some err)
              | (payload, None) =>
                  match Auth payload with
                  | None => panic nil_deref
                  | Some auth => ret (ClientToken auth, None)
                  end
              end
     end s').2 = s').
  { intros [[resp|] [err|]] s'; try done.
    destruct (negb (StatusCode resp =? 200)); [done|].
    destruct (json_Unmarshal env (RespBody resp)) as [payload [err|]]; [done|].
    by destruct (Auth payload). }
  destruct (negb (is_empty (str_attr d "ca_cert_file"))).
  - destruct (ioutil_ReadFile env (str_attr d "ca_cert_file"))
      as [caCert [err|]]; [by left|].
    apply Hrest, Hf.
  - apply Hrest, Hf.
Qed.

(** ** Configure: transport, client and the two token paths *)

Lemma providerConfigure_to_setup env d ev :
  client_auth_ok d →
  providerConfigure env {| rd := d; sent := ev |}
  = let s := {| rd := d; sent := ev |} in
    match ConfigureTLS env (configured_tls d) with
    | Some err =>
        (Returns (None, Some ("failed to configure TLS for Vault API: "
                              +:+ err)), s)
    | None =>
        match api_NewClient env (configured_client d) with
        | (_, Some err) =>
            (Returns (None, Some ("failed to configure Vault API: " +:+ err)),
             s)
        | (oc, None) =>
            match (if negb (is_empty (str_attr d "personal_access_token"))
                   then githubLogin env s
                   else (Returns (str_attr d "token", None), s)) with
            | (Panics why, s') => (Panics why, s')
            | (Returns (_, Some err), s') => (Returns (None, Some err), s')
            | (Returns (token, None), s') =>
                if is_empty token
                then (Returns (None, Some no_token), s')
                else match oc with
                     | None => (Panics nil_deref, s')
                     | Some c =>
                         (Returns
                            (Some {| client := SetToken c token;
                                     githubOrg := str_attr d "github_org";
                                     namespaceDomain :=
                                       str_attr d "namespace_domain" |},
                             None), s')
                     end
            end
        end
    end.
Proof.
  intros Hauth. cbv zeta.
  assert (Hfiles :
    (1 <? Z.of_nat (length (list_attr d "client_auth"))) = false
    ∧ match list_attr d "client_auth" with
      | [v] => client_auth_files v
      | _ => ret (EmptyString, EmptyString)
      end {| rd := d; sent := ev |}
      = (Returns (client_auth_pair d), {| rd := d; sent := ev |})).
  { unfold client_auth_pair.
    destruct Hauth as [->|(m & cert & key & -> & Hc & Hk)]; [done|].
    split; [done|]. unfold client_auth_files, bind. by rewrite Hc, Hk. }
  destruct Hfiles as (Hlen & Hfiles).
  unfold providerConfigure, bind at 1 2. simpl.
  rewrite Hlen. unfold bind at 1. rewrite Hfiles.
  unfold bind at 1 2 3. simpl.
  fold (configured_tls d). fold (configured_client d).
  destruct (ConfigureTLS env (configured_tls d)) as [err|]; [done|].
  destruct (api_NewClient env (configured_client d)) as [oc [err|]]; [done|].
  unfold bind at 1 2 3. simpl.
  destruct (negb (is_empty (str_attr d "personal_access_token"))).
  - pose proof (githubLogin_keeps_rd env {| rd := d; sent := ev |}) as Hrd.
    destruct (githubLogin env _) as [[[token [err|]]|why] s']; try done.
    destruct (is_empty token); [done|].
    destruct oc as [c|]; [|done].
    unfold bind, Get_string, ret. simpl in *. by rewrite Hrd.
  - unfold ret. destruct (is_empty (str_attr d "token")); [done|].
    by destruct oc.
Qed.

(** X6: more than one [client_auth] block is refused before TLS is
    configured, a client is built or anything is sent. *)
Theorem providerConfigure_two_client_auth
    (env : Env) (d : ResourceData) (ev : list event) :
  (1 < length (list_attr d "client_auth"))%nat →
  providerConfigure env {| rd := d; sent := ev |}
  = (Returns (None, Some "client_auth block may appear only once"),
     {| rd := d; sent := ev |}).
Proof.
  intros Hlen. unfold providerConfigure, bind at 1 2. simpl.
  assert ((1 <? Z.of_nat (length (list_attr d "client_auth"))) = true) as ->
    by (apply Z.ltb_lt; lia).
  done.
Qed.

Lemma providerConfigure_two_client_auth_scenario :
  providerConfigure (stub_env EmptyString (ok_answer (auth_body "tok-xyz")))
    (fresh two_blocks)
  = (Returns (None, Some "client_auth block may appear only once"),
     fresh two_blocks).
Proof.
  apply (providerConfigure_two_client_auth
           (stub_env EmptyString (ok_answer (auth_body "tok-xyz")))
           two_blocks []).
  vm_compute. lia.
Defined.

(** X7: Configure hands [ConfigureTLS] the CA file and directory, the
    insecure flag and the files of the client_auth block, and builds the
    client for the configured address; an error of either step ends
    Configure with the wrapped error, with nothing sent. *)
Theorem providerConfigure_setup_errors
    (env : Env) (d : ResourceData) (ev : list event) :
  client_auth_ok d →
  (∀ err,
     ConfigureTLS env (configured_tls d) = Some err →
     providerConfigure env {| rd := d; sent := ev |}
     = (Returns (None, Some ("failed to configure TLS for Vault API: "
                             +:+ err)),
        {| rd := d; sent := ev |}))
  ∧ (∀ oc err,
       ConfigureTLS env (configured_tls d) = None →
       api_NewClient env (configured_client d) = (oc, Some err) →
       providerConfigure env {| rd := d; sent := ev |}
       = (Returns (None, Some ("failed to configure Vault API: " +:+ err)),
          {| rd := d; sent := ev |})).
Proof.
  intros Hauth. rewrite (providerConfigure_to_setup env d ev Hauth).
  cbv zeta. split.
  - intros err ->. done.
  - intros oc err -> ->. done.
Qed.

(** X8: with no personal access token and a non-empty static token (and
    transport and client built), Configure sends nothing and returns a
    context whose client carries the static token as it is, together with
    the configured organisation and namespace. *)
Theorem providerConfigure_static_token
    (env : Env) (d : ResourceData) (ev : list event) (c : api_Client) :
  client_auth_ok d →
  ConfigureTLS env (configured_tls d) = None →
  api_NewClient env (configured_client d) = (Some c, None) →
  str_attr d "personal_access_token" = EmptyString →
  str_attr d "token" ≠ EmptyString →
  providerConfigure env {| rd := d; sent := ev |}
  = (Returns (Some {| client := SetToken c (str_attr d "token");
                      githubOrg := str_attr d "github_org";
                      namespaceDomain := str_attr d "namespace_domain" |},
              None),
     {| rd := d; sent := ev |}).
Proof.
  intros Hauth Htls Hnew HP Htok.
  rewrite (providerConfigure_to_setup env d ev Hauth). cbv zeta.
  rewrite Htls, Hnew, (is_empty_true _ HP). simpl.
  by rewrite (is_empty_false _ Htok).
Qed.


Lemma providerConfigure_setup_errors_scenario :
  let env := with_ConfigureTLS (stub_env EmptyString refused_answer)
               (Some "Error loading CA File") in
  let d := static_config in
  (∀ err,
     ConfigureTLS env (configured_tls d) = Some err →
     providerConfigure env (fresh d)
     = (Returns (None, Some ("failed to configure TLS for Vault API: "
                             +:+ err)), fresh d))
  ∧ (∀ oc err,
       ConfigureTLS env (configured_tls d) = None →
       api_NewClient env (configured_client d) = (oc, Some err) →
       providerConfigure env (fresh d)
       = (Returns (None, Some ("failed to configure Vault API: " +:+ err)),
          fresh d)).
Proof.
  intros env d.
  apply (providerConfigure_setup_errors env d []).
  left. reflexivity.
Defined.

Example providerConfigure_tls_error :
  providerConfigure
    (with_ConfigureTLS (stub_env EmptyString refused_answer)
       (Some "Error loading CA File"))
    (fresh static_config)
  = (Returns (None,
              Some "failed to configure TLS for Vault API: Error loading CA File"),
     fresh static_config).
Proof. vm_compute. reflexivity. Qed.

Lemma providerConfigure_static_token_scenario :
  providerConfigure (stub_env EmptyString refused_answer) (fresh static_config)
  = (Returns
       (Some {| client :=
                  SetToken {| client_config := configured_client static_config;
                              client_token := EmptyString |}
                    (str_attr static_config "token");
                githubOrg := str_attr static_config "github_org";
                namespaceDomain := str_attr static_config "namespace_domain" |},
        None),
     fresh static_config).
Proof.
  apply (providerConfigure_static_token
           (stub_env EmptyString refused_answer) static_config []).
  - left. reflexivity.
  - reflexivity.
  - reflexivity.
  - reflexivity.
  - discriminate.
Defined.


Lemma keeps_rd_Get_list (k : string) : keeps_rd (Get_list k).
Proof. by intros s. Qed.

Lemma keeps_rd_Get_bool (k : string) : keeps_rd (Get_bool k).
Proof. by intros s. Qed.

Lemma keeps_rd_assert_string v : keeps_rd (assert_string v).
Proof. unfold assert_string. by destruct v as [[]|]. Qed.

Lemma keeps_rd_client_auth_files v : keeps_rd (client_auth_files v).
Proof.
  unfold client_auth_files.
  destruct v; try apply keeps_rd_panic.
  repeat first [apply keeps_rd_assert_string | frame_step].
Qed.

(** X10: Configure never changes the configuration it reads, and with an
    empty personal access token it sends nothing at all, whatever the
    environment answers. *)
Theorem providerConfigure_frame (env : Env) (s : store) :
  rd (providerConfigure env s).2 = rd s
  ∧ (str_attr (rd s) "personal_access_token" = EmptyString →
     sent (providerConfigure env s).2 = sent s).
Proof.
  split.
  - revert s. change (keeps_rd (providerConfigure env)).
    unfold providerConfigure. cbv zeta.
    repeat first
      [ apply keeps_rd_Get_list | apply keeps_rd_Get_bool
      | apply keeps_rd_client_auth_files | apply githubLogin_keeps_rd
      | frame_step ].
  - intros HP. destruct s as [d ev]. simpl in HP.
    unfold providerConfigure, bind at 1 2. simpl.
    destruct (1 <? Z.of_nat (length (list_attr d "client_auth"))); [done|].
    unfold bind at 1.
    assert (Hfiles : ∃ o, match list_attr d "client_auth" with
                          | [v] => client_auth_files v
                          | _ => ret (EmptyString, EmptyString)
                          end {| rd := d; sent := ev |}
                          = (o, {| rd := d; sent := ev |})).
    { destruct (list_attr d "client_auth") as [|v [|? ?]]; try by eexists.
      unfold client_auth_files. destruct v; try by eexists.
      unfold bind, assert_string.
      destruct (m !! "cert_file") as [[]|]; try by eexists.
      destruct (m !! "key_file") as [[]|]; by eexists. }
    destruct Hfiles as [o ->]. destruct o as [files|why]; [|done].
    unfold bind at 1 2 3. simpl.
    destruct (ConfigureTLS env _); [done|].
    destruct (api_NewClient env _) as [oc [err|]]; [done|].
    unfold bind at 1 2 3. simpl. rewrite (is_empty_true _ HP). simpl.
    unfold ret. destruct (is_empty (str_attr d "token")); [done|].
    by destruct oc.
Qed.

(** * Further properties of the AppRole resource *)

(** X11: when the role-id answer carries a string role_id and the
    secret-id answer a string secret_id, Create returns nil, has sent the
    read of path/role-id and then the write of path/secret-id with an empty
    body, and has recorded the path as identity, both ids, and the login
    URL built from the client address, while every other attribute keeps
    its value. *)
Theorem approleWrite_records_credential
    (env : Env) (meta : ResourceContext) (d : ResourceData) (ev : list event)
    (roleID secretID : string) :
  answer_has "role_id" roleID
    (Logical_Read env (client meta) (approle_path meta d +:+ "/role-id")) →
  answer_has "secret_id" secretID
    (Logical_Write env (client meta) (approle_path meta d +:+ "/secret-id") ∅) →
  let r := approleWrite env meta {| rd := d; sent := ev |} in
  r.1 = Returns None
  ∧ sent r.2 = (ev ++ [EvRead (approle_path meta d +:+ "/role-id");
                       EvWrite (approle_path meta d +:+ "/secret-id") ∅])%list
  ∧ Id (rd r.2)
    = "auth/approle/" +:+ namespaceDomain meta +:+ "/" +:+ githubOrg meta
        +:+ "/role/" +:+ str_attr d "repository"
  ∧ attrs (rd r.2) !! "role_id" = Some (VString roleID)
  ∧ attrs (rd r.2) !! "secret_id" = Some (VString secretID)
  ∧ attrs (rd r.2) !! "auth_path"
    = Some (VString (Address (client_config (client meta))
                     +:+ "/v1/auth/approle/" +:+ namespaceDomain meta
                     +:+ "/" +:+ githubOrg meta +:+ "/login"))
  ∧ ∀ k, k ≠ "role_id" → k ≠ "secret_id" → k ≠ "auth_path" →
         attrs (rd r.2) !! k = attrs d !! k.
Proof.
  intros Hr Hs r. subst r.
  rewrite (approleWrite_succeeds env meta d ev _ _ Hr Hs). simpl.
  split_and!; try done.
  - by rewrite lookup_insert_ne, lookup_insert_ne, lookup_insert_eq.
  - by rewrite lookup_insert_ne, lookup_insert_eq.
  - by rewrite lookup_insert_eq.
  - intros k H1 H2 H3. by rewrite !lookup_insert_ne.
Qed.

Lemma approleWrite_records_credential_scenario :
  let r := approleWrite approle_backend acme_context (fresh my_repo) in
  r.1 = Returns None
  ∧ sent r.2
    = [EvRead (approle_path acme_context my_repo +:+ "/role-id");
       EvWrite (approle_path acme_context my_repo +:+ "/secret-id") ∅]
  ∧ Id (rd r.2)
    = "auth/approle/" +:+ namespaceDomain acme_context +:+ "/"
        +:+ githubOrg acme_context +:+ "/role/"
        +:+ str_attr my_repo "repository"
  ∧ attrs (rd r.2) !! "role_id" = Some (VString "rid-1")
  ∧ attrs (rd r.2) !! "secret_id" = Some (VString "sid-1")
  ∧ attrs (rd r.2) !! "auth_path"
    = Some (VString (Address (client_config (client acme_context))
                     +:+ "/v1/auth/approle/" +:+ namespaceDomain acme_context
                     +:+ "/" +:+ githubOrg acme_context +:+ "/login"))
  ∧ ∀ k, k ≠ "role_id" → k ≠ "secret_id" → k ≠ "auth_path" →
         attrs (rd r.2) !! k = attrs my_repo !! k.
Proof.
  apply (approleWrite_records_credential approle_backend acme_context
           my_repo [] "rid-1" "sid-1").
  - eexists. split; reflexivity.
  - eexists. split; reflexivity.
Defined.

(** X12: presence is checked, the type is not.  A role_id that is not a
    string makes Create panic after the read; a secret_id that is not a
    string makes it panic after the secret-id has been generated.  Either
    way nothing is recorded. *)
Theorem approleWrite_non_string_id_panics
    (env : Env) (meta : ResourceContext) (d : ResourceData) (ev : list event) :
  let r := approleWrite env meta {| rd := d; sent := ev |} in
  let role_answer :=
    Logical_Read env (client meta) (approle_path meta d +:+ "/role-id") in
  let secret_answer :=
    Logical_Write env (client meta) (approle_path meta d +:+ "/secret-id") ∅ in
  (∀ sec v,
     role_answer = (Some sec, None) →
     Data sec !! "role_id" = Some v → (∀ str, v ≠ VString str) →
     r = (Panics bad_assert,
          {| rd := d;
             sent := ev ++ [EvRead (approle_path meta d +:+ "/role-id")] |}))
  ∧ (∀ roleID sec v,
       answer_has "role_id" roleID role_answer →
       secret_answer = (Some sec, None) →
       Data sec !! "secret_id" = Some v → (∀ str, v ≠ VString str) →
       r = (Panics bad_assert,
            {| rd := d;
               sent := ev ++ [EvRead (approle_path meta d +:+ "/role-id");
                              EvWrite (approle_path meta d +:+ "/secret-id") ∅]
            |})).
Proof.
  intros r role_answer secret_answer. subst r role_answer secret_answer.
  split.
  - intros sec v Hr Hv Hns.
    unfold approleWrite, bind, logical_Read, emit, ret, Get_string.
    simpl. fold (approle_path meta d). rewrite Hr.
    rewrite is_Some_bool, Hv. simpl.
    destruct v; try done. by destruct (Hns s).
  - intros roleID sec v (sr & Hr & Hrole) Hw Hv Hns.
    unfold approleWrite, bind, logical_Read, logical_Write, emit, ret,
      Get_string.
    simpl. fold (approle_path meta d). rewrite Hr.
    rewrite is_Some_bool, Hrole. simpl. rewrite Hw.
    rewrite is_Some_bool, Hv. simpl. rewrite <- app_assoc. simpl.
    destruct v; try done. by destruct (Hns s).
Qed.

Example approleWrite_numeric_secret_id :
  approleWrite
    (backend_env
       (λ _, (Some (secret_with [("role_id", VString "rid-1")]), None))
       (λ _ _, (Some (secret_with [("secret_id", VNumber "42")]), None))
       (λ _, "null") sample_time)
    acme_context (fresh my_repo)
  = (Panics bad_assert,
     {| rd := my_repo;
        sent := [EvRead "auth/approle/acme.io/acme/role/my-repo/role-id";
                 EvWrite "auth/approle/acme.io/acme/role/my-repo/secret-id" ∅]
     |}).
Proof. vm_compute. reflexivity. Qed.

Lemma approleDelete_run env meta d ev :
  approleDelete env meta {| rd := d; sent := ev |}
  = let uri := Id d +:+ "/secret-id/destroy" in
    let body : gmap string value :=
      {["secret_id" := VString (str_attr d "secret_id")]} in
    (Returns match (Logical_Write env (client meta) uri body).2 with
             | Some err => Some ("Error Revoking secret_id: " +:+ err)
             | None => None
             end,
     {| rd := d; sent := ev ++ [EvWrite uri body] |}).
Proof.
  unfold approleDelete, bind, logical_Write, emit, ret, Get_string, Get_Id.
  simpl. rewrite insert_empty.
  by destruct (Logical_Write env _ _ _).2.
Qed.

(** X13: Delete sends one write, to the identity followed by
    /secret-id/destroy, with the stored secret_id as the only field; it
    returns the backend error wrapped, or nil when there is none (a nil
    secret is not looked at); and it leaves the resource data as it is. *)
Theorem approleDelete_revokes_stored_secret
    (env : Env) (meta : ResourceContext) (d : ResourceData) (ev : list event) :
  let uri := Id d +:+ "/secret-id/destroy" in
  let body : gmap string value :=
    {["secret_id" := VString (str_attr d "secret_id")]} in
  let r := approleDelete env meta {| rd := d; sent := ev |} in
  sent r.2 = (ev ++ [EvWrite uri body])%list
  ∧ rd r.2 = d
  ∧ (∀ err, (Logical_Write env (client meta) uri body).2 = Some err →
            r.1 = Returns (Some ("Error Revoking secret_id: " +:+ err)))
  ∧ ((Logical_Write env (client meta) uri body).2 = None →
     r.1 = Returns None).
Proof.
  intros uri body r. subst uri body r.
  rewrite approleDelete_run. cbv zeta. simpl.
  split_and!; try done.
  - by intros err ->.
  - by intros ->.
Qed.

(** X14: Create and then Delete: the secret_id the backend generated at
    Create is the one Delete sends, to the AppRole path of the repository
    followed by /secret-id/destroy. *)
Theorem approleDelete_after_Write
    (env : Env) (meta : ResourceContext) (d : ResourceData) (ev : list event)
    (roleID secretID : string) :
  answer_has "role_id" roleID
    (Logical_Read env (client meta) (approle_path meta d +:+ "/role-id")) →
  answer_has "secret_id" secretID
    (Logical_Write env (client meta) (approle_path meta d +:+ "/secret-id") ∅) →
  let s1 := (approleWrite env meta {| rd := d; sent := ev |}).2 in
  sent (approleDelete env meta s1).2
  = (sent s1
       ++ [EvWrite ("auth/approle/" +:+ namespaceDomain meta +:+ "/"
                      +:+ githubOrg meta +:+ "/role/"
                      +:+ str_attr d "repository" +:+ "/secret-id/destroy")
             {["secret_id" := VString secretID]}])%list.
Proof.
  intros Hr Hs s1. subst s1.
  rewrite (approleWrite_succeeds env meta d ev _ _ Hr Hs). simpl.
  rewrite approleDelete_run. cbv zeta. simpl.
  f_equal. f_equal. f_equal.
  - unfold approle_path. by rewrite !append_assoc.
  - unfold str_attr, approle_recorded. simpl.
    by rewrite lookup_insert_ne, lookup_insert_eq.
Qed.

Lemma approleDelete_after_Write_scenario :
  let s1 := (approleWrite approle_backend acme_context (fresh my_repo)).2 in
  sent (approleDelete approle_backend acme_context s1).2
  = (sent s1
       ++ [EvWrite ("auth/approle/" +:+ namespaceDomain acme_context +:+ "/"
                      +:+ githubOrg acme_context +:+ "/role/"
                      +:+ str_attr my_repo "repository"
                      +:+ "/secret-id/destroy")
             {["secret_id" := VString "sid-1"]}])%list.
Proof.
  apply (approleDelete_after_Write approle_backend acme_context my_repo []
           "rid-1" "sid-1").
  - eexists. split; reflexivity.
  - eexists. split; reflexivity.
Defined.

Lemma approleWrite_rd_cases env meta d ev :
  rd (approleWrite env meta {| rd := d; sent := ev |}).2 = d
  ∨ ∃ roleID secretID,
      rd (approleWrite env meta {| rd := d; sent := ev |}).2
      = approle_recorded meta d roleID secretID.
Proof.
  unfold approleWrite, bind, logical_Read, logical_Write, emit, ret,
    Get_string.
  simpl. fold (approle_path meta d).
  destruct (Logical_Read env _ _) as [[sr|] [e|]]; simpl; try by left.
  rewrite is_Some_bool.
  destruct (Data sr !! "role_id") as [v|]; simpl; [|by left].
  destruct v; simpl; try by left.
  destruct (Logical_Write env _ _ _) as [[sec|] [e|]]; simpl; try by left.
  rewrite is_Some_bool.
  destruct (Data sec !! "secret_id") as [v|]; simpl; [|by left].
  destruct v; simpl; try by left.
  right. by eexists _, _.
Qed.

(** X15: an attribute that the AppRole schema does not declare Computed
    (the repository, or any name outside the schema) has the same value
    after Create, after Delete and after Read, for every backend. *)
Theorem approle_writes_computed_only
    (env : Env) (meta : ResourceContext) (s : store) (k : string) :
  is_computed approleResource k = false →
  attrs (rd (approleWrite env meta s).2) !! k = attrs (rd s) !! k
  ∧ attrs (rd (approleDelete env meta s).2) !! k = attrs (rd s) !! k
  ∧ attrs (rd (approleRead s).2) !! k = attrs (rd s) !! k.
Proof.
  intros Hk. destruct s as [d ev]. split_and!; [| |done].
  - destruct (approleWrite_rd_cases env meta d ev)
      as [->|(roleID & secretID & ->)]; [done|].
    simpl.
    assert (k ≠ "role_id" ∧ k ≠ "secret_id" ∧ k ≠ "auth_path")
      as (H1 & H2 & H3).
    { split_and!; intros ->; vm_compute in Hk; discriminate. }
    by rewrite !lookup_insert_ne.
  - by rewrite approleDelete_run.
Qed.

Lemma approle_keeps_repository :
  let s := fresh my_repo in
  attrs (rd (approleWrite approle_backend acme_context s).2) !! "repository"
    = attrs (rd s) !! "repository"
  ∧ attrs (rd (approleDelete approle_backend acme_context s).2)
      !! "repository"
    = attrs (rd s) !! "repository"
  ∧ attrs (rd (approleRead s).2) !! "repository"
    = attrs (rd s) !! "repository".
Proof.
  apply (approle_writes_computed_only approle_backend acme_context
           (fresh my_repo) "repository").
  reflexivity.
Defined.

(** * Further properties of the certificate resource *)

Lemma pki_issue_body_lookup (d : ResourceData) (k : string) :
  pki_issue_body d !! k
  = if decide (k = "common_name")
    then Some (VString (str_attr d "common_name"))
    else if decide (k = "alt_names" ∨ k = "ip_sans" ∨ k = "ttl")
    then (if is_empty (str_attr d k) then None
          else Some (VString (str_attr d k)))
    else None.
Proof.
  unfold pki_issue_body.
  destruct (decide (k = "common_name")) as [->|Hc].
  { destruct (is_empty (str_attr d "alt_names")),
      (is_empty (str_attr d "ip_sans")), (is_empty (str_attr d "ttl"));
      simpl; by simplify_map_eq. }
  destruct (decide (k = "alt_names" ∨ k = "ip_sans" ∨ k = "ttl")) as [Hk|Hk].
  - destruct Hk as [-> | [-> | ->]];
      destruct (is_empty (str_attr d "alt_names")),
        (is_empty (str_attr d "ip_sans")), (is_empty (str_attr d "ttl"));
      simpl; by simplify_map_eq.
  - assert (k ≠ "alt_names" ∧ k ≠ "ip_sans" ∧ k ≠ "ttl") as (H1 & H2 & H3)
      by naive_solver.
    destruct (is_empty (str_attr d "alt_names")),
      (is_empty (str_attr d "ip_sans")), (is_empty (str_attr d "ttl"));
      simpl; by simplify_map_eq.
Qed.

(** X16: Create always sends exactly one write, to path/issue/organisation;
    its body holds common_name, holds each of alt_names, ip_sans and ttl
    exactly when that attribute is non-empty, and holds nothing else. *)
Theorem pkiWrite_request
    (env : Env) (meta : ResourceContext) (d : ResourceData) (ev : list event) :
  ∃ body : gmap string value,
    sent (pkiWrite env meta {| rd := d; sent := ev |}).2
    = (ev ++ [EvWrite (str_attr d "path" +:+ "/issue/" +:+ githubOrg meta)
                body])%list
    ∧ body !! "common_name" = Some (VString (str_attr d "common_name"))
    ∧ (∀ k, k = "alt_names" ∨ k = "ip_sans" ∨ k = "ttl" →
            body !! k = if is_empty (str_attr d k) then None
                        else Some (VString (str_attr d k)))
    ∧ (∀ k, k ≠ "common_name" → k ≠ "alt_names" → k ≠ "ip_sans" →
            k ≠ "ttl" → body !! k = None).
Proof.
  exists (pki_issue_body d). split_and!.
  - rewrite pkiWrite_run. cbv zeta.
    destruct (Logical_Write env _ _ _) as [[sec|] [e|]]; try done.
    by destruct (Data sec !! "serial_number") as [[]|].
  - rewrite pki_issue_body_lookup. by rewrite decide_True.
  - intros k Hk. rewrite pki_issue_body_lookup.
    by destruct Hk as [-> | [-> | ->]].
  - intros k H1 H2 H3 H4. rewrite pki_issue_body_lookup.
    rewrite decide_False by done.
    by rewrite decide_False by (intros [?|[?|?]]; done).
Qed.

(** X17: a write error ends Create with the wrapped error and nothing
    recorded; an answer with a string serial_number makes that serial the
    identity, copies certificate, private_key, issuing_ca, private_key_type
    and serial_number from the answer (nil for a field the answer lacks),
    and leaves every other attribute alone. *)
Theorem pkiWrite_outcomes
    (env : Env) (meta : ResourceContext) (d : ResourceData) (ev : list event) :
  let r := pkiWrite env meta {| rd := d; sent := ev |} in
  let answer :=
    Logical_Write env (client meta) (pki_issue_uri meta d) (pki_issue_body d) in
  (∀ sec err,
     answer = (sec, Some err) →
     r.1 = Returns (Some ("error writing to Vault: " +:+ err)) ∧ rd r.2 = d)
  ∧ (∀ sec serial,
       answer = (Some sec, None) →
       Data sec !! "serial_number" = Some (VString serial) →
       r.1 = Returns None
       ∧ Id (rd r.2) = serial
       ∧ (∀ k, k ∈ ["certificate"; "private_key"; "issuing_ca";
                    "private_key_type"; "serial_number"] →
               attrs (rd r.2) !! k = Some (index (Data sec) k))
       ∧ (∀ k, k ∉ ["certificate"; "private_key"; "issuing_ca";
                    "private_key_type"; "serial_number"] →
               attrs (rd r.2) !! k = attrs d !! k)).
Proof.
  intros r answer. subst r answer. rewrite pkiWrite_run. cbv zeta.
  split.
  - intros sec err ->. by destruct sec.
  - intros sec serial -> ->. simpl. split_and!; try done.
    + intros k Hk. repeat (apply elem_of_cons in Hk as [->|Hk]);
        [..|by apply elem_of_nil in Hk]; by simplify_map_eq.
    + intros k Hk.
      repeat (rewrite lookup_insert_ne; [|intros <-; apply Hk; set_solver]).
      done.
Qed.

(** X18: Create and then Delete: the serial number the backend issued at
    Create is the one Delete sends, alone, to the same mount's revoke
    path. *)
Theorem pkiDelete_after_Write
    (env : Env) (meta : ResourceContext) (d : ResourceData) (ev : list event)
    (sec : Secret) (serial : string) :
  Logical_Write env (client meta) (pki_issue_uri meta d) (pki_issue_body d)
    = (Some sec, None) →
  Data sec !! "serial_number" = Some (VString serial) →
  let s1 := (pkiWrite env meta {| rd := d; sent := ev |}).2 in
  sent (pkiDelete env meta s1).2
  = (sent s1 ++ [EvWrite (str_attr d "path" +:+ "/revoke")
                   {["serial_number" := VString serial]}])%list.
Proof.
  intros Hw Hserial s1. subst s1.
  rewrite pkiWrite_run. cbv zeta. rewrite Hw, Hserial. simpl.
  rewrite pkiDelete_run. cbv zeta. simpl.
  assert (Hpath :
    str_attr
      {| Id := serial;
         attrs :=
           <["serial_number" := index (Data sec) "serial_number"]>
          (<["private_key_type" := index (Data sec) "private_key_type"]>
          (<["issuing_ca" := index (Data sec) "issuing_ca"]>
          (<["private_key" := index (Data sec) "private_key"]>
          (<["certificate" := index (Data sec) "certificate"]>
             (attrs d))))) |} "path"
    = str_attr d "path").
  { unfold str_attr. simpl. by rewrite !lookup_insert_ne. }
  rewrite Hpath.
  destruct (Logical_Write env (client meta) (str_attr d "path" +:+ "/revoke")
              {["serial_number" := VString serial]}) as [[sec'|] [e|]];
    reflexivity.
Qed.

Lemma pkiDelete_after_Write_scenario :
  let s1 := (pkiWrite pki_backend acme_context (fresh cert_request)).2 in
  sent (pkiDelete pki_backend acme_context s1).2
  = (sent s1 ++ [EvWrite (str_attr cert_request "path" +:+ "/revoke")
                   {["serial_number" := VString "12:34:AB"]}])%list.
Proof.
  apply (pkiDelete_after_Write pki_backend acme_context cert_request []
           (secret_with [("serial_number", VString "12:34:AB");
                         ("certificate", VString "PEM")]) "12:34:AB").
  - reflexivity.
  - reflexivity.
Defined.

(** X19: when the revocation write returns neither an error nor a secret,
    Delete panics on the nil secret: the revocation has been sent, and
    revocation_time and the rest of the resource data are as before. *)
Theorem pkiDelete_nil_answer_panics
    (env : Env) (meta : ResourceContext) (d : ResourceData) (ev : list event) :
  Logical_Write env (client meta) (str_attr d "path" +:+ "/revoke")
    {["serial_number" := VString (Id d)]} = (None, None) →
  pkiDelete env meta {| rd := d; sent := ev |}
  = (Panics nil_deref,
     {| rd := d;
        sent := ev ++ [EvWrite (str_attr d "path" +:+ "/revoke")
                         {["serial_number" := VString (Id d)]}] |}).
Proof. intros Hw. rewrite pkiDelete_run. cbv zeta. by rewrite Hw. Qed.

Lemma pkiDelete_nil_answer_panics_scenario :
  pkiDelete pki_backend acme_context (fresh issued_cert)
  = (Panics nil_deref,
     {| rd := issued_cert;
        sent := [] ++ [EvWrite (str_attr issued_cert "path" +:+ "/revoke")
                         {["serial_number" := VString (Id issued_cert)]}] |}).
Proof.
  apply (pkiDelete_nil_answer_panics pki_backend acme_context issued_cert []).
  reflexivity.
Defined.

Lemma pkiWrite_rd_cases env meta d ev :
  rd (pkiWrite env meta {| rd := d; sent := ev |}).2 = d
  ∨ ∃ (sec : Secret) (serial : string),
      rd (pkiWrite env meta {| rd := d; sent := ev |}).2
      = {| Id := serial;
           attrs :=
             <["serial_number" := index (Data sec) "serial_number"]>
            (<["private_key_type" := index (Data sec) "private_key_type"]>
            (<["issuing_ca" := index (Data sec) "issuing_ca"]>
            (<["private_key" := index (Data sec) "private_key"]>
            (<["certificate" := index (Data sec) "certificate"]>
               (attrs d))))) |}.
Proof.
  rewrite pkiWrite_run. cbv zeta.
  destruct (Logical_Write env _ _ _) as [[sec|] [e|]]; try by left.
  destruct (Data sec !! "serial_number") as [[]|]; try by left.
  right. by eexists _, _.
Qed.

(** X20: an attribute that the certificate schema does not declare
    Computed (common_name, path, alt_names, ip_sans, ttl, or any name
    outside the schema) has the same value after Create, after Delete and
    after Read, for every backend. *)
Theorem pki_writes_computed_only
    (env : Env) (meta : ResourceContext) (s : store) (k : string) :
  is_computed pkiResource k = false →
  attrs (rd (pkiWrite env meta s).2) !! k = attrs (rd s) !! k
  ∧ attrs (rd (pkiDelete env meta s).2) !! k = attrs (rd s) !! k
  ∧ attrs (rd (pkiRead s).2) !! k = attrs (rd s) !! k.
Proof.
  intros Hk. destruct s as [d ev]. split_and!; [| |done].
  - destruct (pkiWrite_rd_cases env meta d ev)
      as [->|(sec & serial & ->)]; [done|].
    simpl.
    assert (k ≠ "serial_number" ∧ k ≠ "private_key_type" ∧ k ≠ "issuing_ca"
            ∧ k ≠ "private_key" ∧ k ≠ "certificate")
      as (H1 & H2 & H3 & H4 & H5).
    { split_and!; intros ->; vm_compute in Hk; discriminate. }
    by rewrite !lookup_insert_ne.
  - rewrite pkiDelete_run. cbv zeta.
    destruct (Logical_Write env _ _ _) as [[sec|] [e|]]; try done.
    simpl. rewrite lookup_insert_ne; [done|].
    intros <-. vm_compute in Hk. discriminate.
Qed.

Lemma pki_keeps_common_name :
  let s := fresh cert_request in
  attrs (rd (pkiWrite pki_backend acme_context s).2) !! "common_name"
    = attrs (rd s) !! "common_name"
  ∧ attrs (rd (pkiDelete pki_backend acme_context s).2) !! "common_name"
    = attrs (rd s) !! "common_name"
  ∧ attrs (rd (pkiRead s).2) !! "common_name"
    = attrs (rd s) !! "common_name".
Proof.
  apply (pki_writes_computed_only pki_backend acme_context
           (fresh cert_request) "common_name").
  reflexivity.
Defined.

(** * Further properties of the generic-secret data source *)

Lemma genericSecretDataSourceRead_error_run env meta d ev :
  (Logical_Read env (client meta) (str_attr d "path")).2 ≠ None
  ∨ (Logical_Read env (client meta) (str_attr d "path")).1 = None →
  genericSecretDataSourceRead env meta {| rd := d; sent := ev |}
  = (Returns (Some ("Error reading " +:+ str_attr d "path"
                    +:+ " from Vault: "
                    +:+ fmt_s (Logical_Read env (client meta)
                                 (str_attr d "path")).2)),
     {| rd := d; sent := ev ++ [EvRead (str_attr d "path")] |}).
Proof.
  intros H.
  unfold genericSecretDataSourceRead, bind, logical_Read, emit, ret,
    Get_string.
  simpl.
  destruct (Logical_Read env _ _) as [[sec|] [e|]]; simpl in *; try done.
  by destruct H.
Qed.

(** X21: when the backend read returns an error or no secret, Read
    returns an error that names the path and the cause (the nil-error
    marker when there is none), after exactly one read, and sets neither
    the identity nor any attribute. *)
Theorem genericSecretDataSourceRead_failure
    (env : Env) (meta : ResourceContext) (d : ResourceData) (ev : list event) :
  let path := str_attr d "path" in
  let answer := Logical_Read env (client meta) path in
  answer.2 ≠ None ∨ answer.1 = None →
  genericSecretDataSourceRead env meta {| rd := d; sent := ev |}
  = (Returns (Some ("Error reading " +:+ path +:+ " from Vault: "
                    +:+ fmt_s answer.2)),
     {| rd := d; sent := ev ++ [EvRead path] |}).
Proof.
  intros path answer H. subst path answer.
  by apply genericSecretDataSourceRead_error_run.
Qed.

Lemma genericSecretDataSourceRead_failure_missing :
  genericSecretDataSourceRead pki_backend acme_context
    (fresh (bag [("path", "secret/app")]))
  = (Returns (Some ("Error reading "
                    +:+ str_attr (bag [("path", "secret/app")]) "path"
                    +:+ " from Vault: "
                    +:+ fmt_s (Logical_Read pki_backend (client acme_context)
                                 (str_attr (bag [("path", "secret/app")])
                                    "path")).2)),
     {| rd := bag [("path", "secret/app")];
        sent := [] ++ [EvRead (str_attr (bag [("path", "secret/app")])
                                 "path")] |}).
Proof.
  apply (genericSecretDataSourceRead_failure pki_backend acme_context
           (bag [("path", "secret/app")]) []).
  right. reflexivity.
Defined.

Example genericSecretDataSourceRead_missing_text :
  (genericSecretDataSourceRead pki_backend acme_context
     (fresh (bag [("path", "secret/app")]))).1
  = Returns (Some "Error reading secret/app from Vault: %!s(<nil>)").
Proof. vm_compute. reflexivity. Qed.

(** X22: a successful Read sends exactly one read of the configured path,
    returns nil, takes the request id of the answer as identity, stores
    the JSON encoding of the whole payload in data_json and the lease id,
    duration and renewable flag of the answer, and leaves every attribute
    outside the seven it writes as it was. *)
Theorem genericSecretDataSourceRead_success
    (env : Env) (meta : ResourceContext) (d : ResourceData) (ev : list event)
    (secret : Secret) :
  Logical_Read env (client meta) (str_attr d "path") = (Some secret, None) →
  let r := genericSecretDataSourceRead env meta {| rd := d; sent := ev |} in
  r.1 = Returns None
  ∧ sent r.2 = (ev ++ [EvRead (str_attr d "path")])%list
  ∧ Id (rd r.2) = RequestID secret
  ∧ attrs (rd r.2) !! "data_json"
    = Some (VString (json_Marshal env (VObject (Data secret))))
  ∧ attrs (rd r.2) !! "lease_id" = Some (VString (LeaseID secret))
  ∧ attrs (rd r.2) !! "lease_duration" = Some (VInt (LeaseDuration secret))
  ∧ attrs (rd r.2) !! "lease_renewable" = Some (VBool (Renewable secret))
  ∧ ∀ k, k ∉ ["data_json"; "data"; "lease_id"; "lease_duration";
              "lease_start_time"; "lease_renewable"] →
         attrs (rd r.2) !! k = attrs d !! k.
Proof.
  intros Hr r. subst r.
  rewrite (genericSecretDataSourceRead_run env meta d ev secret Hr). simpl.
  split_and!; try done; try by simplify_map_eq.
  intros k Hk.
  repeat (rewrite lookup_insert_ne; [|intros <-; apply Hk; set_solver]).
  done.
Qed.

Lemma genericSecretDataSourceRead_success_mixed :
  let env := secret_env sample_time in
  let d := bag [("path", "secret/app")] in
  let r := genericSecretDataSourceRead env acme_context (fresh d) in
  r.1 = Returns None
  ∧ sent r.2 = [EvRead (str_attr d "path")]
  ∧ Id (rd r.2) = RequestID mixed_secret
  ∧ attrs (rd r.2) !! "data_json"
    = Some (VString (json_Marshal env (VObject (Data mixed_secret))))
  ∧ attrs (rd r.2) !! "lease_id" = Some (VString (LeaseID mixed_secret))
  ∧ attrs (rd r.2) !! "lease_duration"
    = Some (VInt (LeaseDuration mixed_secret))
  ∧ attrs (rd r.2) !! "lease_renewable"
    = Some (VBool (Renewable mixed_secret))
  ∧ ∀ k, k ∉ ["data_json"; "data"; "lease_id"; "lease_duration";
              "lease_start_time"; "lease_renewable"] →
         attrs (rd r.2) !! k = attrs d !! k.
Proof.
  intros env d.
  apply (genericSecretDataSourceRead_success env acme_context d []
           mixed_secret).
  reflexivity.
Defined.

Lemma genericSecretDataSourceRead_rd_cases env meta d ev :
  rd (genericSecretDataSourceRead env meta {| rd := d; sent := ev |}).2 = d
  ∨ ∃ secret,
      Logical_Read env (client meta) (str_attr d "path") = (Some secret, None).
Proof.
  unfold genericSecretDataSourceRead, bind, logical_Read, emit, ret,
    Get_string.
  simpl.
  destruct (Logical_Read env _ _) as [[sec|] [e|]]; simpl; try by left.
  right. by eexists.
Qed.

(** X23: an attribute that the data source's schema does not declare
    Computed (the path, or any name outside the schema) has the same value
    after Read, whatever the backend answers. *)
Theorem genericSecret_writes_computed_only
    (env : Env) (meta : ResourceContext) (s : store) (k : string) :
  is_computed genericSecretDataSource k = false →
  attrs (rd (genericSecretDataSourceRead env meta s).2) !! k
  = attrs (rd s) !! k.
Proof.
  intros Hk. destruct s as [d ev].
  destruct (genericSecretDataSourceRead_rd_cases env meta d ev)
    as [->|(secret & Hr)]; [done|].
  rewrite (genericSecretDataSourceRead_run env meta d ev secret Hr). simpl.
  assert (k ≠ "lease_renewable" ∧ k ≠ "lease_start_time"
          ∧ k ≠ "lease_duration" ∧ k ≠ "lease_id" ∧ k ≠ "data"
          ∧ k ≠ "data_json") as (H1 & H2 & H3 & H4 & H5 & H6).
  { split_and!; intros ->; vm_compute in Hk; discriminate. }
  by rewrite !lookup_insert_ne.
Qed.

Lemma genericSecret_keeps_path :
  attrs (rd (genericSecretDataSourceRead (secret_env sample_time)
               acme_context (fresh (bag [("path", "secret/app")]))).2)
    !! "path"
  = attrs (rd (fresh (bag [("path", "secret/app")]))) !! "path".
Proof.
  apply (genericSecret_writes_computed_only (secret_env sample_time)
           acme_context (fresh (bag [("path", "secret/app")])) "path").
  reflexivity.
Defined.

(** X24: reading again, with the backend and the clock unchanged, gives
    the resource data of the first Read: a second Read reads the same path
    and overwrites the same seven values with themselves. *)
Theorem genericSecretDataSourceRead_twice
    (env : Env) (meta : ResourceContext) (s : store) :
  let s1 := (genericSecretDataSourceRead env meta s).2 in
  rd (genericSecretDataSourceRead env meta s1).2 = rd s1.
Proof.
  intros s1. subst s1. destruct s as [d ev].
  destruct (Logical_Read env (client meta) (str_attr d "path"))
    as [[secret|] [e|]] eqn:Hr.
  1,3,4:
    rewrite (genericSecretDataSourceRead_error_run env meta d ev)
      by (rewrite Hr; simpl; auto);
    simpl snd;
    by rewrite (genericSecretDataSourceRead_error_run env meta d)
      by (rewrite Hr; simpl; auto).
  rewrite (genericSecretDataSourceRead_run env meta d ev secret Hr).
  set (d1 := rd (_, _).2). simpl snd.
  assert (Hpath : str_attr d1 "path" = str_attr d "path").
  { unfold str_attr, d1. simpl. by rewrite !lookup_insert_ne. }
  rewrite (genericSecretDataSourceRead_run env meta d1 _ secret)
    by by rewrite Hpath.
  simpl. unfold d1. simpl. f_equal.
  apply map_eq. intros k.
  do 6 (match goal with
        | |- <[?i := _]> _ !! k = _ =>
            destruct (decide (i = k)) as [<-|?];
            [by rewrite !lookup_insert_eq
            |rewrite !(lookup_insert_ne _ i k) by done]
        end).
  by rewrite !lookup_insert_ne.
Qed.

(** * The session Configure hands out *)

(** X25: whenever Configure returns a context, whatever the environment
    did, the token set on its client is not empty, it is the token the
    login returned when a personal access token is configured and the
    static token otherwise, and the organisation and namespace of the
    context are the configured ones. *)
Theorem providerConfigure_context
    (env : Env) (s : store) (ctx : ResourceContext) :
  (providerConfigure env s).1 = Returns (Some ctx, None) →
  client_token (client ctx) ≠ EmptyString
  ∧ githubOrg ctx = str_attr (rd s) "github_org"
  ∧ namespaceDomain ctx = str_attr (rd s) "namespace_domain"
  ∧ (if is_empty (str_attr (rd s) "personal_access_token")
     then client_token (client ctx) = str_attr (rd s) "token"
     else (githubLogin env s).1 = Returns (client_token (client ctx), None)).
Proof.
  destruct s as [d ev]. simpl rd.
  unfold providerConfigure, bind at 1 2. simpl.
  destruct (1 <? Z.of_nat (length (list_attr d "client_auth"))); [done|].
  unfold bind at 1.
  assert (Hfiles : ∃ o, match list_attr d "client_auth" with
                        | [v] => client_auth_files v
                        | _ => ret (EmptyString, EmptyString)
                        end {| rd := d; sent := ev |}
                        = (o, {| rd := d; sent := ev |})).
  { destruct (list_attr d "client_auth") as [|v [|? ?]]; try by eexists.
    unfold client_auth_files. destruct v; try by eexists.
    unfold bind, assert_string.
    destruct (m !! "cert_file") as [[]|]; try by eexists.
    destruct (m !! "key_file") as [[]|]; by eexists. }
  destruct Hfiles as [o ->]. destruct o as [files|why]; [|done].
  unfold bind at 1 2 3. simpl.
  destruct (ConfigureTLS env _); [done|].
  destruct (api_NewClient env _) as [oc [err|]]; [done|].
  unfold bind at 1 2 3. simpl.
  destruct (is_empty (str_attr d "personal_access_token")); simpl.
  - unfold ret.
    destruct (is_empty (str_attr d "token")) eqn:Htok; [done|].
    destruct oc as [c|]; [|done].
    simpl. intros [= <-]. simpl. split_and!; try done.
    intros Hemp. by rewrite (is_empty_true _ Hemp) in Htok.
  - pose proof (githubLogin_keeps_rd env {| rd := d; sent := ev |}) as Hrd.
    destruct (githubLogin env _) as [[[token [err|]]|why] s']; try done.
    destruct (is_empty token) eqn:Htok; [done|].
    destruct oc as [c|]; [|done].
    unfold bind, Get_string, ret. simpl in *. rewrite Hrd.
    intros [= <-]. simpl. split_and!; try done.
    intros Hemp. by rewrite (is_empty_true _ Hemp) in Htok.
Qed.

Lemma providerConfigure_context_scenario :
  let ctx :=
    {| client :=
         {| client_config := configured_client both_config;
            client_token := "tok-xyz" |};
       githubOrg := "acme";
       namespaceDomain := "acme.io" |} in
  let env := stub_env EmptyString (ok_answer (auth_body "tok-xyz")) in
  client_token (client ctx) ≠ EmptyString
  ∧ githubOrg ctx = str_attr (rd (fresh both_config)) "github_org"
  ∧ namespaceDomain ctx
    = str_attr (rd (fresh both_config)) "namespace_domain"
  ∧ (if is_empty (str_attr (rd (fresh both_config)) "personal_access_token")
     then client_token (client ctx)
          = str_attr (rd (fresh both_config)) "token"
     else (githubLogin env (fresh both_config)).1
          = Returns (client_token (client ctx), None)).
Proof.
  intros ctx env.
  apply (providerConfigure_context env (fresh both_config) ctx).
  reflexivity.
Defined.

(** X26: Create sends the role-id read first and nothing before it; the
    secret-id generation is sent only when the role-id answer carried a
    string role_id, and then it is the only other request. *)
Theorem approleWrite_requests
    (env : Env) (meta : ResourceContext) (d : ResourceData) (ev : list event) :
  let r := approleWrite env meta {| rd := d; sent := ev |} in
  let role_path := approle_path meta d +:+ "/role-id" in
  let secret_path := approle_path meta d +:+ "/secret-id" in
  (sent r.2 = (ev ++ [EvRead role_path])%list
   ∧ ¬ ∃ roleID,
         answer_has "role_id" roleID
           (Logical_Read env (client meta) role_path))
  ∨ (sent r.2 = (ev ++ [EvRead role_path; EvWrite secret_path ∅])%list
     ∧ ∃ roleID,
         answer_has "role_id" roleID
           (Logical_Read env (client meta) role_path)).
Proof.
  intros r role_path secret_path. subst r role_path secret_path.
  unfold approleWrite, bind, logical_Read, logical_Write, emit, ret,
    Get_string.
  simpl. fold (approle_path meta d).
  destruct (Logical_Read env _ _) as [[sr|] [e|]] eqn:Hr; simpl;
    try (left; split; [done|]; by intros (roleID & sec & [= ] & _)).
  rewrite is_Some_bool.
  destruct (Data sr !! "role_id") as [v|] eqn:Hrole; simpl.
  2: { left. split; [done|]. intros (roleID & sec & [= <-] & Hsec).
       by rewrite Hrole in Hsec. }
  destruct v; simpl;
    try (left; split; [done|]; intros (roleID & sec & [= <-] & Hsec);
         by rewrite Hrole in Hsec).
  right. split; [|by eexists _, _].
  rewrite <- app_assoc. simpl.
  destruct (Logical_Write env _ _ _) as [[sec|] [e|]]; simpl; try done.
  rewrite is_Some_bool.
  destruct (Data sec !! "secret_id") as [v|]; simpl; [|done].
  by destruct v.
Qed.
